(** * OSPF neighbour discovery: the adjacency state machine of [OspfL4Protocol]

    A shallow embedding of the IPv4 receive path of ospf-l4-protocol.cc
    ([Receive], the three [Handle...Response] handlers, the three
    [Send...Packet] composers, [Send] and [startDownState]) together with
    the properties of the discovery phase that the design document states
    about them.

    Conventions of the embedding:
    - [uint32_t], [int] and the enum values are integers ([Z]); no
      arithmetic is performed on them by the code, only [==] and [!=];
    - interface and address indices are [nat], used for list lookup;
    - the object [OspfL4Protocol] is a record, its member functions run in
      a state-and-abort monad over that record;
    - the down target [m_downTarget] is modelled by the log of the calls
      made to it, oldest first;
    - [NS_ABORT_MSG] and the out-of-range [NS_FATAL_ERROR] of
      [Ipv4Interface::GetAddress] stop the run: the monad returns [Abort]
      together with the state reached so far. *)

From Stdlib Require Import ZArith List Bool.
From stdpp Require Import base list gmap.

Local Open Scope Z_scope.

(** ** Addresses *)

Abbreviation Ipv4Address := Z (only parsing).
Abbreviation Ipv4Mask := Z (only parsing).

Definition dotted (a b c d : Z) : Ipv4Address :=
  Z.lor (Z.shiftl a 24) (Z.lor (Z.shiftl b 16) (Z.lor (Z.shiftl c 8) d)).

(** [#define OSPF_ALL_NODE "224.0.0.5"] *)
Definition OSPF_ALL_NODE : Ipv4Address := dotted 224 0 0 5.

(** [const uint8_t OspfL4Protocol::PROTOCOL_NUMBER = 89] *)
Definition PROTOCOL_NUMBER : Z := 89.

(** [enum States] of ospf-l4-protocol.h. *)
Module States.
Definition DOWN : Z := 0.
Definition ATTEMPT : Z := 1.
Definition INIT : Z := 2.
Definition TWO_WAY : Z := 3.
Definition EXSTART : Z := 4.
Definition EXCHANGE : Z := 5.
Definition LOADING : Z := 6.
Definition FULL : Z := 7.
End States.

(** [enum PacketType] of ospf-l4-protocol.h. *)
Module PacketType.
Definition HELLO : Z := 0.
Definition DBD : Z := 1.
Definition LSA : Z := 2.
Definition LSU : Z := 3.
Definition LSAck : Z := 4.
End PacketType.

(** ns-3's [Ipv4InterfaceAddress]: the scope decides whether the sender
    may use the address. *)
Module Ipv4InterfaceAddress.
Inductive InterfaceAddressScope_e := HOST | LINK | GLOBAL.

#[global] Instance scope_eq_dec : EqDecision InterfaceAddressScope_e.
Proof. solve_decision. Defined.

Record t := mk {
  GetLocal : Ipv4Address;
  GetMask : Ipv4Mask;
  GetBroadcast : Ipv4Address;
  GetScope : InterfaceAddressScope_e;
  IsSecondary : bool
}.

#[global] Instance eq_dec : EqDecision t.
Proof. solve_decision. Defined.
End Ipv4InterfaceAddress.

(** ns-3's [Ipv4Interface], reduced to the addresses it carries.
    [GetAddress] is fatal on an index that is out of bounds; [None] stands
    for that. *)
Module Ipv4Interface.
Record t := mk { m_ifaddrs : list Ipv4InterfaceAddress.t }.

#[global] Instance eq_dec : EqDecision t.
Proof. solve_decision. Defined.

Definition GetAddress (interface : t) (index : nat)
  : option Ipv4InterfaceAddress.t :=
  m_ifaddrs interface !! index.
End Ipv4Interface.

(** ** The neighbour table *)

Module OspfNeighborTable.

(** Modelled from the spec: the neighbour record of the table class
    (its header and implementation are not among the source files).
    Fields as in section 3 of the design document; [router_id] and
    [ipInterface] carry the names the protocol code reads them by. *)
Record NeighborRecord := mkNeighbor {
  peer_address : Ipv4Address;
  mask : Ipv4Mask;
  ipInterface : Ipv4Interface.t;
  state : Z;
  router_id : Z
}.

(** The two-level shape the protocol code iterates over
    ([for row : neighbors], [for neighborItems : row]). *)
Definition neighborList := list (list NeighborRecord).

(** Modelled from the spec: the table owns its rows of records. *)
Record t := mkTable { m_neighbors : neighborList }.

(** Modelled from the spec: a table is created empty. *)
Definition create : t := mkTable [].

(** Modelled from the spec: [get_current_neighbors] returns a copy of
    all rows and records. *)
Definition getCurrentNeighbors (tbl : t) : neighborList := m_neighbors tbl.

(** All records of a list of rows, row after row. *)
Definition records (rows : neighborList) : list NeighborRecord := concat rows.

(** Some record of the rows carries the router id. *)
Definition has_router_id (rid : Z) (rows : neighborList) : bool :=
  existsb (fun n => router_id n =? rid) (records rows).

(** Modelled from the spec: [add_neighbor] inserts a new record if no
    record with this router id exists and otherwise has no effect on
    the table; a discovery event contributes one row. *)
Definition addNeighbors (addr : Ipv4Address) (msk : Ipv4Mask)
    (interface : Ipv4Interface.t) (st : Z) (rid : Z) (tbl : t) : t :=
  if has_router_id rid (m_neighbors tbl) then tbl
  else mkTable (m_neighbors tbl ++ [[mkNeighbor addr msk interface st rid]]).

(** Modelled from the spec: [get_state] by router id; an absent router
    id is surfaced as an explicit not-found result ([None]), not as a
    default state. *)
Definition get_State (rid : Z) (tbl : t) : option Z :=
  state <$> List.find (fun n => router_id n =? rid) (records (m_neighbors tbl)).

(** The record with its state replaced. *)
Definition with_state (st : Z) (n : NeighborRecord) : NeighborRecord :=
  mkNeighbor (peer_address n) (mask n) (ipInterface n) st (router_id n).

(** Modelled from the spec: [set_state] by router id, without any
    transition validation; it rewrites the state of the record that
    carries the router id and touches nothing else. *)
Definition set_State (st : Z) (rid : Z) (tbl : t) : t :=
  mkTable (map (map (fun n => if router_id n =? rid then with_state st n else n))
               (m_neighbors tbl)).

(** The invariant of section 3: at most one record per router id. *)
Definition unique_ids (tbl : t) : Prop :=
  NoDup (map router_id (records (m_neighbors tbl))).

(** The number of records that carry the router id. *)
Definition count_id (rid : Z) (tbl : t) : nat :=
  length (filter (fun n => router_id n = rid) (records (m_neighbors tbl))).

End OspfNeighborTable.

Export OspfNeighborTable (NeighborRecord, neighborList).

(** ** Headers and packets *)

(** Modelled from the spec: the discovery message class (ospf-hello.h is
    not among the source files), by the decoded fields of section 3 under
    the accessor names the protocol code calls: the sender's neighbour
    snapshot, router id and area. *)
Module OspfHello.
Record t := mk {
  getNeighbors : neighborList;
  getRouterId : Z;
  getAreaId : Z
}.
End OspfHello.

(** Modelled from the spec: the outer protocol header class (ospf-header.h
    is not among the source files), by the decoded fields of section 3
    under the accessor names the protocol code calls. [checksum_init]
    records the arguments of [InitializeChecksum]. *)
Module OspfHeader.
Record t := mk {
  GetState : Z;
  GetPacketType : Z;
  GetMask : Ipv4Mask;
  checksum_init : option (Ipv4Address * Ipv4Address * Z)
}.
End OspfHeader.

Module Ipv4Header.
Record t := mk { GetSource : Ipv4Address; GetDestination : Ipv4Address }.
End Ipv4Header.

(** A packet as the protocol sees it: the optional [Ipv4PacketInfoTag]
    (its [GetRecvIf]), the outer header and the discovery message. *)
Record Packet := mkPacket {
  packetInfoTag : option nat;
  ospfHeaderOf : OspfHeader.t;
  helloHeaderOf : OspfHello.t
}.

(** One call [m_downTarget(packet, saddr, daddr, PROTOCOL_NUMBER, nullptr)]. *)
Record DownTargetCall := mkCall {
  call_packet : Packet;
  call_saddr : Ipv4Address;
  call_daddr : Ipv4Address;
  call_protocol : Z
}.

(** ** The node's IPv4 stack, as far as [startDownState] reads it *)

(** One interface of [m_ipv4]: whether its device is a
    [LoopbackNetDevice], its forwarding flag and its addresses. *)
Record Ipv4If := mkIf {
  netDeviceIsLoopback : bool;
  forwarding : bool;
  addresses : list Ipv4InterfaceAddress.t
}.

(** ** The protocol object *)

Record OspfL4Protocol := mkProto {
  m_ipv4 : list Ipv4If;
  m_interfaceExclusions : gset nat;
  m_neighbor_table : OspfNeighborTable.t;
  m_routerId : Z;
  m_areaId : Z;
  m_downTarget : list DownTargetCall
}.

(** The constructor: a fresh table; the identifiers are set later by
    [SetNode] and [SetOspfAreaType]. *)
Definition constructed (ipv4 : list Ipv4If) (excl : gset nat)
    (rid aid : Z) : OspfL4Protocol :=
  mkProto ipv4 excl OspfNeighborTable.create rid aid [].

(** ** The state-and-abort monad *)

(** The fatal errors of the modelled code: the missing packet tag of
    [Receive], and an index that is out of bounds. *)
Inductive fatal :=
| NoIncomingInterface
| IndexOutOfBounds (index : nat).

Inductive result (A : Type) :=
| Ok (a : A)
| Abort (e : fatal).
Arguments Ok {A} a.
Arguments Abort {A} e.

(** A member function: from the object to an outcome and the object
    afterwards. After [Abort] nothing more runs. *)
Definition M (A : Type) : Type := OspfL4Protocol -> result A * OspfL4Protocol.

Definition ret {A} (a : A) : M A := fun st => (Ok a, st).

Definition bind {A B} (c : M A) (k : A -> M B) : M B :=
  fun st =>
    match c st with
    | (Ok a, st') => k a st'
    | (Abort e, st') => (Abort e, st')
    end.

Definition abort {A} (e : fatal) : M A := fun st => (Abort e, st).
Definition gets {A} (f : OspfL4Protocol -> A) : M A := fun st => (Ok (f st), st).
Definition modify (f : OspfL4Protocol -> OspfL4Protocol) : M unit :=
  fun st => (Ok tt, f st).

Declare Scope ospf_scope.
Delimit Scope ospf_scope with ospf.
Notation "'let*' x ':=' c 'in' k" := (bind c (fun x => k))
  (at level 10, x name, c at level 100, k at level 200) : ospf_scope.
Notation "c1 ;; c2" := (bind c1 (fun _ => c2))
  (at level 100, c2 at level 200, right associativity) : ospf_scope.
Local Open Scope ospf_scope.

Definition when (b : bool) (c : M unit) : M unit := if b then c else ret tt.

Fixpoint for_each {A} (l : list A) (body : A -> M unit) : M unit :=
  match l with
  | [] => ret tt
  | x :: rest => body x ;; for_each rest body
  end.

(** The state a run ends in, whether it completes or aborts. *)
Definition state_after {A} (c : M A) (st : OspfL4Protocol) : OspfL4Protocol :=
  snd (c st).

(** [interface->GetAddress(index)] inside a member function. *)
Definition GetAddress (interface : Ipv4Interface.t) (index : nat)
  : M Ipv4InterfaceAddress.t :=
  match Ipv4Interface.GetAddress interface index with
  | Some a => ret a
  | None => abort (IndexOutOfBounds index)
  end.

(** Assignments to [m_neighbor_table] and calls of [m_downTarget]. *)
Definition update_table (f : OspfNeighborTable.t -> OspfNeighborTable.t)
    (st : OspfL4Protocol) : OspfL4Protocol :=
  mkProto (m_ipv4 st) (m_interfaceExclusions st) (f (m_neighbor_table st))
          (m_routerId st) (m_areaId st) (m_downTarget st).

Definition push_call (c : DownTargetCall) (st : OspfL4Protocol) : OspfL4Protocol :=
  mkProto (m_ipv4 st) (m_interfaceExclusions st) (m_neighbor_table st)
          (m_routerId st) (m_areaId st) (m_downTarget st ++ [c]).

(** ** Configuration setters *)

Definition SetNode (node_id : Z) : M unit :=
  modify (fun st => mkProto (m_ipv4 st) (m_interfaceExclusions st)
                      (m_neighbor_table st) node_id (m_areaId st) (m_downTarget st)).

Definition SetOspfAreaType (area_id : Z) : M unit :=
  modify (fun st => mkProto (m_ipv4 st) (m_interfaceExclusions st)
                      (m_neighbor_table st) (m_routerId st) area_id (m_downTarget st)).

Definition SetIpv4 (the_ipv4 : list Ipv4If) : M unit :=
  modify (fun st => mkProto the_ipv4 (m_interfaceExclusions st)
                      (m_neighbor_table st) (m_routerId st) (m_areaId st) (m_downTarget st)).

Definition SetExclusions (iExclusions : gset nat) : M unit :=
  modify (fun st => mkProto (m_ipv4 st) iExclusions
                      (m_neighbor_table st) (m_routerId st) (m_areaId st) (m_downTarget st)).

(** ** The sender *)

(** [OspfL4Protocol::Send] (the IPv4 overload without a route): the
    header that is added to the packet carries the discovery message it
    was built from, the checksum arguments, the state, the packet type
    and the mask; the packet goes to the down target. *)
Definition Send (saddr daddr : Ipv4Address) (ipv4Mask : Ipv4Mask)
    (helloHeader : OspfHello.t) (packetType currentState : Z) : M unit :=
  let ospfHeader :=
    OspfHeader.mk currentState packetType ipv4Mask
                  (Some (saddr, daddr, PROTOCOL_NUMBER)) in
  let packet := mkPacket None ospfHeader helloHeader in
  modify (push_call (mkCall packet saddr daddr PROTOCOL_NUMBER)).

(** The discovery message every composer builds: the current neighbour
    snapshot, the local router id and the local area id. *)
Definition compose_hello : M OspfHello.t :=
  let* neighbors := gets (fun st => OspfNeighborTable.getCurrentNeighbors (m_neighbor_table st)) in
  let* routerId := gets m_routerId in
  let* areaId := gets m_areaId in
  ret (OspfHello.mk neighbors routerId areaId).

Definition scope_is_host (address : Ipv4InterfaceAddress.t) : bool :=
  bool_decide (Ipv4InterfaceAddress.GetScope address = Ipv4InterfaceAddress.HOST).

(** [OspfL4Protocol::SendDownPacket] *)
Definition SendDownPacket (address : Ipv4InterfaceAddress.t) : M unit :=
  let* helloHeader := compose_hello in
  when (negb (scope_is_host address))
    (Send (Ipv4InterfaceAddress.GetLocal address) OSPF_ALL_NODE
          (Ipv4InterfaceAddress.GetMask address) helloHeader
          PacketType.HELLO States.DOWN).

(** [OspfL4Protocol::SendInitPacket] *)
Definition SendInitPacket (address : Ipv4InterfaceAddress.t)
    (daddr : Ipv4Address) : M unit :=
  let* helloHeader := compose_hello in
  when (negb (scope_is_host address))
    (Send (Ipv4InterfaceAddress.GetLocal address) daddr
          (Ipv4InterfaceAddress.GetMask address) helloHeader
          PacketType.HELLO States.INIT).

(** [OspfL4Protocol::SendTwoWayPacket] *)
Definition SendTwoWayPacket (address : Ipv4InterfaceAddress.t)
    (daddr : Ipv4Address) : M unit :=
  let* helloHeader := compose_hello in
  when (negb (scope_is_host address))
    (Send (Ipv4InterfaceAddress.GetLocal address) daddr
          (Ipv4InterfaceAddress.GetMask address) helloHeader
          PacketType.HELLO States.TWO_WAY).

(** ** The handlers *)

(** The nested scan both handlers run, over a snapshot or over the local
    table: a flag that starts [false] and is raised by every record whose
    router id is [rid]. *)
Definition scan_router_id (rid : Z) (rows : neighborList) : bool :=
  fold_left
    (fun check row =>
       fold_left
         (fun check neighborItems =>
            if OspfNeighborTable.router_id neighborItems =? rid then true else check)
         row check)
    rows false.

(** [OspfL4Protocol::HandleDownResponse]. The conjunction short-circuits:
    the interface address is only read when the area matches. *)
Definition HandleDownResponse (packet : Packet) (header : Ipv4Header.t)
    (ospfHeader : OspfHeader.t) (interface : Ipv4Interface.t)
    (incomingIf : nat) : M unit :=
  let helloHeader := helloHeaderOf packet in
  let* areaId := gets m_areaId in
  let* accepted :=
    (if OspfHello.getAreaId helloHeader =? areaId
     then (let* address := GetAddress interface incomingIf in
           ret (OspfHeader.GetMask ospfHeader =? Ipv4InterfaceAddress.GetMask address))
     else ret false) in
  when accepted
    (modify (update_table
               (OspfNeighborTable.addNeighbors
                  (Ipv4Header.GetSource header) (OspfHeader.GetMask ospfHeader)
                  interface (OspfHeader.GetState ospfHeader)
                  (OspfHello.getRouterId helloHeader))) ;;
     let* address := GetAddress interface incomingIf in
     SendInitPacket address (Ipv4Header.GetSource header)).

(** The mutual-visibility test shared by the Init and Two-Way handlers:
    the local router id occurs in the snapshot and the areas agree. *)
Definition visibility_check (helloHeader : OspfHello.t) : M bool :=
  let* routerId := gets m_routerId in
  let* areaId := gets m_areaId in
  let check := scan_router_id routerId (OspfHello.getNeighbors helloHeader) in
  let check := if negb (OspfHello.getAreaId helloHeader =? areaId) then false else check in
  ret check.

(** [OspfL4Protocol::HandleInitResponse] *)
Definition HandleInitResponse (packet : Packet) (header : Ipv4Header.t)
    (ospfHeader : OspfHeader.t) (interface : Ipv4Interface.t)
    (incomingIf : nat) : M unit :=
  let helloHeader := helloHeaderOf packet in
  let neighbors := OspfHello.getNeighbors helloHeader in
  match neighbors with
  | [] =>
      let* address := GetAddress interface incomingIf in
      SendDownPacket address
  | _ :: _ =>
      let* check := visibility_check helloHeader in
      if check then
        let* m_current_neighbors :=
          gets (fun st => OspfNeighborTable.getCurrentNeighbors (m_neighbor_table st)) in
        let add_neighbor :=
          match m_current_neighbors with
          | [] => true
          | _ :: _ =>
              let iterator_check :=
                scan_router_id (OspfHello.getRouterId helloHeader) m_current_neighbors in
              if iterator_check then false else true
          end in
        if add_neighbor then
          modify (update_table
                    (OspfNeighborTable.addNeighbors
                       (Ipv4Header.GetSource header) (OspfHeader.GetMask ospfHeader)
                       interface (OspfHeader.GetState ospfHeader)
                       (OspfHello.getRouterId helloHeader))) ;;
          let* address := GetAddress interface incomingIf in
          SendTwoWayPacket address (Ipv4Header.GetSource header)
        else
          let* routerId := gets m_routerId in
          modify (update_table (OspfNeighborTable.set_State States.INIT routerId)) ;;
          let* address := GetAddress interface incomingIf in
          SendTwoWayPacket address (Ipv4Header.GetSource header)
      else
        let* address := GetAddress interface incomingIf in
        SendDownPacket address
  end.

(** The comparison [state == States::TWO_WAY] on the value [get_State]
    hands back: a not-found result is no state, so it compares unequal. *)
Definition reads_state (found : option Z) (expected : Z) : bool :=
  match found with
  | Some state => state =? expected
  | None => false
  end.

(** [OspfL4Protocol::HandleTwoWayResponse] *)
Definition HandleTwoWayResponse (packet : Packet) (header : Ipv4Header.t)
    (ospfHeader : OspfHeader.t) (interface : Ipv4Interface.t)
    (incomingIf : nat) : M unit :=
  let helloHeader := helloHeaderOf packet in
  let neighbors := OspfHello.getNeighbors helloHeader in
  match neighbors with
  | [] =>
      let* address := GetAddress interface incomingIf in
      SendDownPacket address
  | _ :: _ =>
      let* check := visibility_check helloHeader in
      if check then
        let* m_current_neighbors :=
          gets (fun st => OspfNeighborTable.getCurrentNeighbors (m_neighbor_table st)) in
        let neighbor_exist :=
          match m_current_neighbors with
          | [] => false
          | _ :: _ =>
              let iterator_check :=
                scan_router_id (OspfHello.getRouterId helloHeader) m_current_neighbors in
              if iterator_check then true else false
          end in
        if neighbor_exist then
          let* routerId := gets m_routerId in
          let* state := gets (fun st => OspfNeighborTable.get_State routerId (m_neighbor_table st)) in
          if reads_state state States.TWO_WAY then
            ret tt
          else
            modify (update_table (OspfNeighborTable.set_State States.TWO_WAY routerId)) ;;
            let* address := GetAddress interface incomingIf in
            SendTwoWayPacket address (Ipv4Header.GetSource header)
        else
          let* address := GetAddress interface incomingIf in
          SendDownPacket address
      else
        let* address := GetAddress interface incomingIf in
        SendDownPacket address
  end.

Inductive RxStatus := RX_OK | RX_CSUM_FAILED | RX_ENDPOINT_CLOSED | RX_ENDPOINT_UNREACH.

(** [OspfL4Protocol::Receive] (IPv4): the tag is required before any
    dispatch; the three tests on the header's state follow one another. *)
Definition Receive (packet : Packet) (header : Ipv4Header.t)
    (interface : Ipv4Interface.t) : M RxStatus :=
  let ospfHeader := ospfHeaderOf packet in
  let* incomingIf :=
    match packetInfoTag packet with
    | Some interfaceInfo => ret interfaceInfo
    | None => abort NoIncomingInterface
    end in
  when (OspfHeader.GetState ospfHeader =? States.DOWN)
       (HandleDownResponse packet header ospfHeader interface incomingIf) ;;
  when (OspfHeader.GetState ospfHeader =? States.INIT)
       (HandleInitResponse packet header ospfHeader interface incomingIf) ;;
  when (OspfHeader.GetState ospfHeader =? States.TWO_WAY)
       (HandleTwoWayResponse packet header ospfHeader interface incomingIf) ;;
  ret RX_OK.

(** ** The bootstrap self-announcement *)

Fixpoint fold_m {A B} (f : B -> A -> M B) (l : list A) (b : B) : M B :=
  match l with
  | [] => ret b
  | x :: rest => let* b' := f b x in fold_m f rest b'
  end.

(** [m_ipv4->...(i)]: the interface with index [i] of the node. *)
Definition ipv4_interface (i : nat) : M Ipv4If :=
  let* interfaces := gets m_ipv4 in
  match interfaces !! i with
  | Some ifc => ret ifc
  | None => abort (IndexOutOfBounds i)
  end.

(** [m_ipv4->SetForwarding(i, val)] *)
Definition SetForwarding (i : nat) (val : bool) : M unit :=
  let* ifc := ipv4_interface i in
  modify (fun st =>
    mkProto (<[i := mkIf (netDeviceIsLoopback ifc) val (addresses ifc)]> (m_ipv4 st))
            (m_interfaceExclusions st) (m_neighbor_table st)
            (m_routerId st) (m_areaId st) (m_downTarget st)).

(** [m_ipv4->GetAddress(i, j)] *)
Definition ipv4_GetAddress (i j : nat) : M Ipv4InterfaceAddress.t :=
  let* ifc := ipv4_interface i in
  match addresses ifc !! j with
  | Some a => ret a
  | None => abort (IndexOutOfBounds j)
  end.

(** [m_ipv4->GetNAddresses(i)] *)
Definition GetNAddresses (i : nat) : M nat :=
  let* ifc := ipv4_interface i in
  ret (length (addresses ifc)).

(** [OspfL4Protocol::startDownState] *)
Definition startDownState : M unit :=
  let* neighbor_table :=
    gets (fun st => OspfNeighborTable.getCurrentNeighbors (m_neighbor_table st)) in
  let* nInterfaces := gets (fun st => length (m_ipv4 st)) in
  for_each (seq 0 nInterfaces) (fun i =>
    let* ifc := ipv4_interface i in
    if netDeviceIsLoopback ifc then ret tt
    else
      let* exclusions := gets m_interfaceExclusions in
      let* activeInterface :=
        (if bool_decide (i ∉ exclusions)
         then (SetForwarding i true ;; ret true)
         else ret false) in
      let* nAddresses := GetNAddresses i in
      for_each (seq 0 nAddresses) (fun j =>
        let* address := ipv4_GetAddress i j in
        when (negb (scope_is_host address) && activeInterface)
          (let* isInterfaceFull :=
             (match neighbor_table with
              | [] => ret false
              | _ :: _ =>
                  fold_m (fun full row =>
                    fold_m (fun full tableItems =>
                      let* theirs :=
                        GetAddress (OspfNeighborTable.ipInterface tableItems) i in
                      ret (if bool_decide (address = theirs) then true else full))
                      row full)
                    neighbor_table false
              end) in
           when (negb isInterfaceFull) (SendDownPacket address)))).

(** ** Runs of the protocol object *)

(** The calls that reach the object from outside. *)
Inductive call :=
| CallReceive (packet : Packet) (header : Ipv4Header.t) (interface : Ipv4Interface.t)
| CallStartDownState
| CallSetNode (node_id : Z)
| CallSetOspfAreaType (area_id : Z)
| CallSetIpv4 (the_ipv4 : list Ipv4If)
| CallSetExclusions (iExclusions : gset nat).

Definition perform (c : call) (st : OspfL4Protocol) : OspfL4Protocol :=
  match c with
  | CallReceive packet header interface => state_after (Receive packet header interface) st
  | CallStartDownState => state_after startDownState st
  | CallSetNode node_id => state_after (SetNode node_id) st
  | CallSetOspfAreaType area_id => state_after (SetOspfAreaType area_id) st
  | CallSetIpv4 the_ipv4 => state_after (SetIpv4 the_ipv4) st
  | CallSetExclusions iExclusions => state_after (SetExclusions iExclusions) st
  end.

(** The states an object can be in: freshly constructed, or one call
    later than such a state. *)
Inductive reachable : OspfL4Protocol -> Prop :=
| reachable_constructed ipv4 excl rid aid :
    reachable (constructed ipv4 excl rid aid)
| reachable_perform st c :
    reachable st -> reachable (perform c st).

(** The calls added to the down target's log by a run from [st] to [st']. *)
Definition emitted (st st' : OspfL4Protocol) (new : list DownTargetCall) : Prop :=
  m_downTarget st' = m_downTarget st ++ new.

Definition packet_state (c : DownTargetCall) : Z :=
  OspfHeader.GetState (ospfHeaderOf (call_packet c)).

(** ** Vocabulary of the properties *)

(** The relation [R] holds between the state before and the state after
    every run of [c], whether it completes or aborts. *)
Definition respects (R : OspfL4Protocol -> OspfL4Protocol -> Prop)
    {A} (c : M A) : Prop :=
  forall st, R st (state_after c st).

(** The discovery message composed in state [st]. *)
Definition hello_of (st : OspfL4Protocol) : OspfHello.t :=
  OspfHello.mk (OspfNeighborTable.getCurrentNeighbors (m_neighbor_table st))
               (m_routerId st) (m_areaId st).

(** The call a composer makes in state [st] from [address] to [daddr]
    with the state [currentState]. *)
Definition composed (address : Ipv4InterfaceAddress.t) (daddr : Ipv4Address)
    (currentState : Z) (st : OspfL4Protocol) : DownTargetCall :=
  mkCall
    (mkPacket None
       (OspfHeader.mk currentState PacketType.HELLO
          (Ipv4InterfaceAddress.GetMask address)
          (Some (Ipv4InterfaceAddress.GetLocal address, daddr, PROTOCOL_NUMBER)))
       (hello_of st))
    (Ipv4InterfaceAddress.GetLocal address) daddr PROTOCOL_NUMBER.

(** The state after a composer ran: nothing happens on a host-scoped
    address, otherwise the composed call is logged. *)
Definition after_send (address : Ipv4InterfaceAddress.t) (daddr : Ipv4Address)
    (currentState : Z) (st : OspfL4Protocol) : OspfL4Protocol :=
  if scope_is_host address then st
  else push_call (composed address daddr currentState st) st.

(** The mutual-visibility proof: the local router id occurs in the
    snapshot of the discovery message and the areas agree. *)
Definition visible (st : OspfL4Protocol) (helloHeader : OspfHello.t) : bool :=
  OspfNeighborTable.has_router_id (m_routerId st) (OspfHello.getNeighbors helloHeader)
  && (OspfHello.getAreaId helloHeader =? m_areaId st).

(** The sender of the discovery message has a record in the local table. *)
Definition known (st : OspfL4Protocol) (helloHeader : OspfHello.t) : bool :=
  OspfNeighborTable.has_router_id (OspfHello.getRouterId helloHeader)
    (OspfNeighborTable.m_neighbors (m_neighbor_table st)).

(** The effect of a composer on the log of the down target, from [st]
    to [st']: the call [c] is added when the address is not host-scoped,
    and nothing is added when it is. *)
Definition sends_unless_host (address : Ipv4InterfaceAddress.t)
    (c : DownTargetCall) (st st' : OspfL4Protocol) : Prop :=
  (Ipv4InterfaceAddress.GetScope address <> Ipv4InterfaceAddress.HOST ->
   m_downTarget st' = m_downTarget st ++ [c]) /\
  (Ipv4InterfaceAddress.GetScope address = Ipv4InterfaceAddress.HOST ->
   m_downTarget st' = m_downTarget st).

(** The result of [Receive] from the result of the handler it
    dispatched to. *)
Definition finish (r : result unit * OspfL4Protocol) : result RxStatus * OspfL4Protocol :=
  match r with
  | (Ok _, st) => (Ok RX_OK, st)
  | (Abort e, st) => (Abort e, st)
  end.

(** The step of the uniqueness invariant. *)
Definition keeps_unique (st st' : OspfL4Protocol) : Prop :=
  OspfNeighborTable.unique_ids (m_neighbor_table st) ->
  OspfNeighborTable.unique_ids (m_neighbor_table st').

(** A run only appends calls to the log, and each of them satisfies [P]. *)
Definition appends (P : DownTargetCall -> Prop) (st st' : OspfL4Protocol) : Prop :=
  exists new, emitted st st' new /\ Forall P new.

(** The destination rule: a Down-state packet goes to 224.0.0.5, an
    Init-state or Two-Way-state packet goes to [src]. *)
Definition addressed_for (src : Ipv4Address) (c : DownTargetCall) : Prop :=
  (packet_state c = States.DOWN -> call_daddr c = OSPF_ALL_NODE) /\
  (packet_state c = States.INIT \/ packet_state c = States.TWO_WAY ->
   call_daddr c = src).

Definition announcement (c : DownTargetCall) : Prop :=
  packet_state c = States.DOWN /\ call_daddr c = OSPF_ALL_NODE.

(** ** A two-router scenario

    Routers 1 and 2 share the link 10.1.1.0/24 in area 0; router 1 also
    has the loopback address. The packets are those router 2 sends. *)

Module Scenario.

Definition mask24 : Ipv4Mask := dotted 255 255 255 0.
Definition mask8 : Ipv4Mask := dotted 255 0 0 0.

Definition addr1 : Ipv4InterfaceAddress.t :=
  Ipv4InterfaceAddress.mk (dotted 10 1 1 1) mask24 (dotted 10 1 1 255)
                          Ipv4InterfaceAddress.GLOBAL false.
Definition addr2 : Ipv4InterfaceAddress.t :=
  Ipv4InterfaceAddress.mk (dotted 10 1 1 2) mask24 (dotted 10 1 1 255)
                          Ipv4InterfaceAddress.GLOBAL false.
Definition loopback : Ipv4InterfaceAddress.t :=
  Ipv4InterfaceAddress.mk (dotted 127 0 0 1) mask8 (dotted 127 255 255 255)
                          Ipv4InterfaceAddress.HOST false.

Definition link1 : Ipv4Interface.t := Ipv4Interface.mk [addr1].
Definition link2 : Ipv4Interface.t := Ipv4Interface.mk [addr2].
Definition lo : Ipv4Interface.t := Ipv4Interface.mk [loopback].

(** Router 1 after construction, and with router 2 recorded. *)
Definition router1 : OspfL4Protocol :=
  constructed [mkIf true false [loopback]; mkIf false false [addr1]] ∅ 1 0.

Definition record_of_2 : NeighborRecord :=
  OspfNeighborTable.mkNeighbor (dotted 10 1 1 2) mask24 link1 States.DOWN 2.

Definition router1_knows_2 : OspfL4Protocol :=
  update_table (fun _ => OspfNeighborTable.mkTable [[record_of_2]]) router1.

(** Router 1 with a record under its own id as well, at state Two-Way. *)
Definition own_record : NeighborRecord :=
  OspfNeighborTable.mkNeighbor (dotted 10 1 1 1) mask24 link1 States.TWO_WAY 1.

Definition router1_settled : OspfL4Protocol :=
  update_table (fun _ => OspfNeighborTable.mkTable [[record_of_2]; [own_record]])
               router1.

(** The same with the own record still at state Init. *)
Definition router1_started : OspfL4Protocol :=
  update_table
    (fun _ => OspfNeighborTable.mkTable
       [[record_of_2];
        [OspfNeighborTable.mkNeighbor (dotted 10 1 1 1) mask24 link1 States.INIT 1]])
    router1.

(** Router 2's snapshot once it has recorded router 1. *)
Definition record_of_1 : NeighborRecord :=
  OspfNeighborTable.mkNeighbor (dotted 10 1 1 1) mask24 link2 States.DOWN 1.

Definition from_2 : Ipv4Header.t := Ipv4Header.mk (dotted 10 1 1 2) OSPF_ALL_NODE.
Definition from_2_unicast : Ipv4Header.t :=
  Ipv4Header.mk (dotted 10 1 1 2) (dotted 10 1 1 1).

Definition hello_packet (tag : option nat) (st : Z) (msk : Ipv4Mask)
    (snapshot : neighborList) (area : Z) : Packet :=
  mkPacket tag (OspfHeader.mk st PacketType.HELLO msk None)
           (OspfHello.mk snapshot 2 area).

(** The packets of the scenario, all tagged with interface index 0 except
    the first. *)
Definition untagged_down : Packet := hello_packet None States.DOWN mask24 [] 0.
Definition down_valid : Packet := hello_packet (Some 0%nat) States.DOWN mask24 [] 0.
Definition down_mask8 : Packet := hello_packet (Some 0%nat) States.DOWN mask8 [] 0.
Definition init_empty : Packet := hello_packet (Some 0%nat) States.INIT mask24 [] 0.
Definition init_seen : Packet :=
  hello_packet (Some 0%nat) States.INIT mask24 [[record_of_1]] 0.
Definition init_other_area : Packet :=
  hello_packet (Some 0%nat) States.INIT mask24 [[record_of_1]] 7.
Definition two_way_seen : Packet :=
  hello_packet (Some 0%nat) States.TWO_WAY mask24 [[record_of_1]] 0.
Definition two_way_other_area : Packet :=
  hello_packet (Some 0%nat) States.TWO_WAY mask24 [[record_of_1]] 7.

End Scenario.

(** ** Vocabulary of the further properties *)

(** The four ways a handler touches the table, read off the three
    handlers: not at all, [addNeighbors] with the source address, the
    header's mask and state, the receiving interface and the sender's
    router id, or [set_State] with Init or Two-Way under the local router
    id. *)
Definition table_step (packet : Packet) (header : Ipv4Header.t)
    (ospfHeader : OspfHeader.t) (interface : Ipv4Interface.t)
    (st : OspfL4Protocol) (tbl' : OspfNeighborTable.t) : Prop :=
  tbl' = m_neighbor_table st \/
  tbl' = OspfNeighborTable.addNeighbors
           (Ipv4Header.GetSource header) (OspfHeader.GetMask ospfHeader)
           interface (OspfHeader.GetState ospfHeader)
           (OspfHello.getRouterId (helloHeaderOf packet)) (m_neighbor_table st) \/
  tbl' = OspfNeighborTable.set_State States.INIT (m_routerId st) (m_neighbor_table st) \/
  tbl' = OspfNeighborTable.set_State States.TWO_WAY (m_routerId st) (m_neighbor_table st).

(** A call as a handler composes it when it ends in state [st']: from an
    address of the receiving interface at the incoming index that is not
    host-scoped, as a Down-state packet to 224.0.0.5 or as an Init-state
    or Two-Way-state packet to the source of the handled packet. *)
Definition reply_of (header : Ipv4Header.t) (interface : Ipv4Interface.t)
    (incomingIf : nat) (st' : OspfL4Protocol) (c : DownTargetCall) : Prop :=
  exists address daddr currentState,
    Ipv4Interface.GetAddress interface incomingIf = Some address /\
    Ipv4InterfaceAddress.GetScope address <> Ipv4InterfaceAddress.HOST /\
    c = composed address daddr currentState st' /\
    ((currentState = States.DOWN /\ daddr = OSPF_ALL_NODE) \/
     (currentState = States.INIT /\ daddr = Ipv4Header.GetSource header) \/
     (currentState = States.TWO_WAY /\ daddr = Ipv4Header.GetSource header)).

(** The fields no handler assigns. *)
Definition same_configuration (st st' : OspfL4Protocol) : Prop :=
  m_ipv4 st' = m_ipv4 st /\
  m_interfaceExclusions st' = m_interfaceExclusions st /\
  m_routerId st' = m_routerId st /\
  m_areaId st' = m_areaId st.

(** What one handler run does to the object. *)
Definition reaction (packet : Packet) (header : Ipv4Header.t)
    (ospfHeader : OspfHeader.t) (interface : Ipv4Interface.t)
    (incomingIf : nat) (st st' : OspfL4Protocol) : Prop :=
  same_configuration st st' /\
  table_step packet header ospfHeader interface st (m_neighbor_table st') /\
  (m_downTarget st' = m_downTarget st \/
   exists c, m_downTarget st' = m_downTarget st ++ [c] /\
             reply_of header interface incomingIf st' c).

(** Further packets of the two-router scenario: one that asserts
    ExStart, and an Init-state packet whose snapshot lists router 2
    only. *)
Module ScenarioMore.

Definition exstart_seen : Packet :=
  Scenario.hello_packet (Some 0%nat) States.EXSTART Scenario.mask24
                        [[Scenario.record_of_1]] 0.

Definition init_listing_2 : Packet :=
  Scenario.hello_packet (Some 0%nat) States.INIT Scenario.mask24
                        [[Scenario.record_of_2]] 0.

End ScenarioMore.

(** The two loop bodies of [startDownState], named: what is done for
    address [j] of interface [i], and what is done for interface [i]. *)
Definition address_pass (neighbor_table : neighborList) (i : nat)
    (activeInterface : bool) (j : nat) : M unit :=
  let* address := ipv4_GetAddress i j in
  when (negb (scope_is_host address) && activeInterface)
    (let* isInterfaceFull :=
       (match neighbor_table with
        | [] => ret false
        | _ :: _ =>
            fold_m (fun full row =>
              fold_m (fun full tableItems =>
                let* theirs :=
                  GetAddress (OspfNeighborTable.ipInterface tableItems) i in
                ret (if bool_decide (address = theirs) then true else full))
                row full)
              neighbor_table false
        end) in
     when (negb isInterfaceFull) (SendDownPacket address)).

Definition interface_pass (neighbor_table : neighborList) (i : nat) : M unit :=
  let* ifc := ipv4_interface i in
  if netDeviceIsLoopback ifc then ret tt
  else
    let* exclusions := gets m_interfaceExclusions in
    let* activeInterface :=
      (if bool_decide (i ∉ exclusions)
       then (SetForwarding i true ;; ret true)
       else ret false) in
    let* nAddresses := GetNAddresses i in
    for_each (seq 0 nAddresses) (address_pass neighbor_table i activeInterface).

(** An interface takes part in the announcement when its device is not a
    loopback device and its index is not excluded. *)
Definition participates (exclusions : gset nat) (i : nat) (ifc : Ipv4If) : bool :=
  negb (netDeviceIsLoopback ifc) && bool_decide (i ∉ exclusions).

(** The announcements for a list of addresses, composed in state [st]:
    one Down-state packet to 224.0.0.5 from every address that is not
    host-scoped, in order. *)
Definition announcements_from (st : OspfL4Protocol)
    (addrs : list Ipv4InterfaceAddress.t) : list DownTargetCall :=
  map (fun address => composed address OSPF_ALL_NODE States.DOWN st)
      (List.filter (fun address => negb (scope_is_host address)) addrs).

(** The announcements of the interfaces [ifcs], which carry the indices
    [first], [first + 1], ... *)
Fixpoint announcements (st : OspfL4Protocol) (first : nat) (ifcs : list Ipv4If)
    : list DownTargetCall :=
  match ifcs with
  | [] => []
  | ifc :: rest =>
      (if participates (m_interfaceExclusions st) first ifc
       then announcements_from st (addresses ifc) else [])
      ++ announcements st (S first) rest
  end.

(** The same interfaces with forwarding turned on where they take part. *)
Fixpoint forwarding_on (exclusions : gset nat) (first : nat) (ifcs : list Ipv4If)
    : list Ipv4If :=
  match ifcs with
  | [] => []
  | ifc :: rest =>
      (if participates exclusions first ifc
       then mkIf (netDeviceIsLoopback ifc) true (addresses ifc) else ifc)
      :: forwarding_on exclusions (S first) rest
  end.

(** The fields [startDownState] does not assign. *)
Definition same_table_and_identity (st st' : OspfL4Protocol) : Prop :=
  m_neighbor_table st' = m_neighbor_table st /\
  m_interfaceExclusions st' = m_interfaceExclusions st /\
  m_routerId st' = m_routerId st /\
  m_areaId st' = m_areaId st.

(** ** The ICMP path *)

(** Assignment to a [uint16_t]. *)
Definition to_uint16 (z : Z) : Z := z mod 2 ^ 16.

(** The port [ReceiveIcmp] reads from two bytes of the payload:
    [src = payload[0] << 8; src |= payload[1];] with [src] a
    [uint16_t]. *)
Definition icmp_port (b0 b1 : Z) : Z :=
  let src := to_uint16 (Z.shiftl b0 8) in
  to_uint16 (Z.lor src b1).

(** [OspfL4Protocol::ReceiveIcmp] (IPv4). The end-point demultiplexer is
    ns-3's; its [SimpleLookup] is a parameter. The result is the end
    point found together with the five values forwarded to its
    [ForwardIcmp], or [None] when no end point is found and the function
    only logs. [payload] holds the eight bytes of the array. *)
Definition ReceiveIcmp {EndPoint : Type}
    (SimpleLookup : Ipv4Address -> Z -> Ipv4Address -> Z -> option EndPoint)
    (icmpSource : Ipv4Address) (icmpTtl icmpType icmpCode icmpInfo : Z)
    (payloadSource payloadDestination : Ipv4Address) (payload : list Z)
  : option (EndPoint * (Ipv4Address * Z * Z * Z * Z)) :=
  let src := icmp_port (nth 0 payload 0) (nth 1 payload 0) in
  let dst := icmp_port (nth 2 payload 0) (nth 3 payload 0) in
  match SimpleLookup payloadSource src payloadDestination dst with
  | Some endPoint => Some (endPoint, (icmpSource, icmpTtl, icmpType, icmpCode, icmpInfo))
  | None => None
  end.

(** A byte of the payload. *)
Definition is_byte (b : Z) : Prop := 0 <= b < 256.

(** * Properties *)

(** ** The neighbour table *)

Module TableFacts.
Import OspfNeighborTable.

Lemma records_app rows rows' :
  records (rows ++ rows') = records rows ++ records rows'.
Proof. unfold records. apply concat_app. Qed.

Lemma has_router_id_In rid rows :
  has_router_id rid rows = true <-> List.In rid (map router_id (records rows)).
Proof.
  unfold has_router_id. rewrite existsb_exists, in_map_iff.
  split; intros [n [H1 H2]]; exists n.
  - apply Z.eqb_eq in H2. auto.
  - rewrite Z.eqb_eq. auto.
Qed.

Lemma has_router_id_false rid rows :
  has_router_id rid rows = false <-> ~ List.In rid (map router_id (records rows)).
Proof.
  rewrite <- has_router_id_In. destruct (has_router_id rid rows); split; congruence.
Qed.

(** The scan of the handlers computes membership of the router id. *)
Lemma scan_row rid (row : list NeighborRecord) (check : bool) :
  fold_left
    (fun check neighborItems => if router_id neighborItems =? rid then true else check)
    row check
  = check || existsb (fun n => router_id n =? rid) row.
Proof.
  revert check. induction row as [|n row IH]; intros check; simpl.
  - now rewrite orb_false_r.
  - rewrite IH. destruct (router_id n =? rid), check; reflexivity.
Qed.

Lemma scan_rows rid (rows : neighborList) (check : bool) :
  fold_left
    (fun check row =>
       fold_left
         (fun check neighborItems =>
            if router_id neighborItems =? rid then true else check)
         row check)
    rows check
  = check || has_router_id rid rows.
Proof.
  unfold has_router_id, records.
  revert check. induction rows as [|row rows IH]; intros check; simpl.
  - now rewrite orb_false_r.
  - rewrite IH, scan_row, existsb_app. now rewrite orb_assoc.
Qed.

Lemma scan_router_id_spec rid rows :
  scan_router_id rid rows = has_router_id rid rows.
Proof. unfold scan_router_id. now rewrite scan_rows. Qed.


Lemma get_State_present rid tbl :
  has_router_id rid (m_neighbors tbl) = true -> exists s, get_State rid tbl = Some s.
Proof.
  unfold get_State, has_router_id. intros H.
  apply existsb_exists in H. destruct H as [n [Hin Hid]].
  destruct (List.find _ _) as [m|] eqn:E.
  - exists (state m). reflexivity.
  - apply (find_none _ _ E) in Hin. congruence.
Qed.

(** [set_State] keeps every router id in place. *)
Lemma ids_set_State st rid tbl :
  map router_id (records (m_neighbors (set_State st rid tbl)))
  = map router_id (records (m_neighbors tbl)).
Proof.
  unfold set_State, records. simpl.
  rewrite <- concat_map, map_map.
  apply map_ext. intros n. now destruct (router_id n =? rid).
Qed.

Lemma unique_set_State st rid tbl :
  unique_ids tbl -> unique_ids (set_State st rid tbl).
Proof. unfold unique_ids. now rewrite ids_set_State. Qed.

Lemma addNeighbors_present a m i s rid tbl :
  has_router_id rid (m_neighbors tbl) = true -> addNeighbors a m i s rid tbl = tbl.
Proof. unfold addNeighbors. now intros ->. Qed.

Lemma addNeighbors_absent a m i s rid tbl :
  has_router_id rid (m_neighbors tbl) = false ->
  addNeighbors a m i s rid tbl
  = mkTable (m_neighbors tbl ++ [[mkNeighbor a m i s rid]]).
Proof. unfold addNeighbors. now intros ->. Qed.

Lemma has_after_addNeighbors a m i s rid tbl :
  has_router_id rid (m_neighbors (addNeighbors a m i s rid tbl)) = true.
Proof.
  destruct (has_router_id rid (m_neighbors tbl)) eqn:E.
  - now rewrite addNeighbors_present.
  - rewrite addNeighbors_absent by assumption. simpl.
    apply has_router_id_In. rewrite records_app, map_app, in_app_iff.
    right. simpl. auto.
Qed.

Lemma unique_addNeighbors a m i s rid tbl :
  unique_ids tbl -> unique_ids (addNeighbors a m i s rid tbl).
Proof.
  intros U. destruct (has_router_id rid (m_neighbors tbl)) eqn:E.
  - now rewrite addNeighbors_present.
  - rewrite addNeighbors_absent by assumption.
    unfold unique_ids in *. simpl. rewrite records_app, map_app. simpl.
    apply has_router_id_false in E.
    apply NoDup_app. repeat split.
    + exact U.
    + intros x Hx Hx'. apply list_elem_of_In in Hx.
      apply list_elem_of_In in Hx'. destruct Hx' as [<-|[]]. tauto.
    + apply NoDup_singleton.
Qed.

Lemma count_id_unique rid (l : list NeighborRecord) :
  NoDup (map router_id l) ->
  length (filter (fun n => router_id n = rid) l)
  = if existsb (fun n => router_id n =? rid) l then 1%nat else 0%nat.
Proof.
  induction l as [|n l IH]; intros U; [reflexivity|].
  simpl in U. apply NoDup_cons in U. destruct U as [Hnotin U'].
  rewrite list_elem_of_In in Hnotin.
  rewrite filter_cons. simpl existsb.
  destruct (decide (router_id n = rid)) as [Heq|Hne].
  - rewrite (proj2 (Z.eqb_eq _ _) Heq). simpl.
    rewrite (IH U').
    destruct (existsb _ l) eqn:E; [|reflexivity].
    exfalso. apply Hnotin. apply existsb_exists in E.
    destruct E as [m [Hin Hm]]. apply Z.eqb_eq in Hm.
    apply in_map_iff. exists m. split; [congruence|assumption].
  - rewrite (proj2 (Z.eqb_neq _ _) Hne). simpl. apply (IH U').
Qed.

Lemma count_id_present rid tbl :
  unique_ids tbl -> has_router_id rid (m_neighbors tbl) = true ->
  count_id rid tbl = 1%nat.
Proof.
  unfold unique_ids, count_id, has_router_id. intros U H.
  rewrite (count_id_unique _ _ U). now rewrite H.
Qed.

End TableFacts.

(** ** Relating the state before and after a run

    A relation between the state before and the state after that is
    reflexive and transitive can be followed through a member function
    one basic step at a time; an abort keeps the state of the step it
    happened in. *)

Section Stepwise.
Variable R : OspfL4Protocol -> OspfL4Protocol -> Prop.
Hypothesis R_refl : forall st, R st st.
Hypothesis R_trans : forall a b c, R a b -> R b c -> R a c.

Local Abbreviation respects := (respects R).

Lemma respects_ret {A} (a : A) : respects (ret a).
Proof. intros st. apply R_refl. Qed.

Lemma respects_abort {A} e : respects (@abort A e).
Proof. intros st. apply R_refl. Qed.

Lemma respects_gets {A} (f : OspfL4Protocol -> A) : respects (gets f).
Proof. intros st. apply R_refl. Qed.

Lemma respects_modify f : (forall st, R st (f st)) -> respects (modify f).
Proof. intros H st. apply H. Qed.

Lemma respects_bind {A B} (c : M A) (k : A -> M B) :
  respects c -> (forall a, respects (k a)) -> respects (bind c k).
Proof.
  intros Hc Hk st. specialize (Hc st).
  unfold state_after, bind in *.
  destruct (c st) as [[a|e] st1]; simpl in *.
  - eapply R_trans; [exact Hc | apply Hk].
  - exact Hc.
Qed.

Lemma respects_when b (c : M unit) : respects c -> respects (when b c).
Proof. destruct b; simpl; auto using respects_ret. Qed.

Lemma respects_for_each {A} (l : list A) (body : A -> M unit) :
  (forall x, respects (body x)) -> respects (for_each l body).
Proof.
  intros H. induction l as [|x l IH]; simpl.
  - apply respects_ret.
  - apply respects_bind; auto.
Qed.

Lemma respects_fold_m {A B} (f : B -> A -> M B) (l : list A) (b : B) :
  (forall b x, respects (f b x)) -> respects (fold_m f l b).
Proof.
  intros H. revert b. induction l as [|x l IH]; intros b; simpl.
  - apply respects_ret.
  - apply respects_bind; auto.
Qed.

Lemma respects_GetAddress interface index : respects (GetAddress interface index).
Proof.
  unfold GetAddress. destruct (Ipv4Interface.GetAddress _ _).
  - apply respects_ret.
  - apply respects_abort.
Qed.

Lemma respects_compose_hello : respects compose_hello.
Proof.
  unfold compose_hello.
  repeat (apply respects_bind; [apply respects_gets|intros ?]).
  apply respects_ret.
Qed.

(** What the relation has to allow for the member functions below:
    the calls to the down target that satisfy [allowed], the two table
    updates, and turning forwarding on. *)
Variable src : Ipv4Address.
Variable allowed : DownTargetCall -> Prop.

Hypothesis allowed_down :
  forall c, OspfHeader.GetState (ospfHeaderOf (call_packet c)) = States.DOWN ->
            call_daddr c = OSPF_ALL_NODE -> allowed c.
Hypothesis allowed_init :
  forall c, OspfHeader.GetState (ospfHeaderOf (call_packet c)) = States.INIT ->
            call_daddr c = src -> allowed c.
Hypothesis allowed_two_way :
  forall c, OspfHeader.GetState (ospfHeaderOf (call_packet c)) = States.TWO_WAY ->
            call_daddr c = src -> allowed c.
Hypothesis R_push : forall c st, allowed c -> R st (push_call c st).
Hypothesis R_add :
  forall a m i s rid st,
    R st (update_table (OspfNeighborTable.addNeighbors a m i s rid) st).
Hypothesis R_set :
  forall s rid st, R st (update_table (OspfNeighborTable.set_State s rid) st).
Hypothesis R_ipv4 :
  forall ipv4 st,
    R st (mkProto ipv4 (m_interfaceExclusions st) (m_neighbor_table st)
                  (m_routerId st) (m_areaId st) (m_downTarget st)).

Lemma respects_SendDownPacket address : respects (SendDownPacket address).
Proof.
  unfold SendDownPacket.
  apply respects_bind; [apply respects_compose_hello|intros hello].
  apply respects_when. unfold Send. apply respects_modify. intros st.
  apply R_push. now apply allowed_down.
Qed.

Lemma respects_SendInitPacket address : respects (SendInitPacket address src).
Proof.
  unfold SendInitPacket.
  apply respects_bind; [apply respects_compose_hello|intros hello].
  apply respects_when. unfold Send. apply respects_modify. intros st.
  apply R_push. now apply allowed_init.
Qed.

Lemma respects_SendTwoWayPacket address : respects (SendTwoWayPacket address src).
Proof.
  unfold SendTwoWayPacket.
  apply respects_bind; [apply respects_compose_hello|intros hello].
  apply respects_when. unfold Send. apply respects_modify. intros st.
  apply R_push. now apply allowed_two_way.
Qed.

Ltac step :=
  first
    [ apply respects_ret
    | apply respects_abort
    | apply respects_gets
    | apply respects_GetAddress
    | apply respects_SendDownPacket
    | apply respects_SendInitPacket
    | apply respects_SendTwoWayPacket
    | apply respects_modify; intros ?; first [apply R_add | apply R_set | apply R_ipv4]
    | apply respects_when
    | apply respects_bind; [|intros ?]
    | match goal with
      | |- respects (match ?x with _ => _ end) => destruct x
      | |- respects (if ?x then _ else _) => destruct x
      end ].

Lemma respects_HandleDownResponse packet header ospfHeader interface incomingIf :
  Ipv4Header.GetSource header = src ->
  respects (HandleDownResponse packet header ospfHeader interface incomingIf).
Proof. intros Hsrc. unfold HandleDownResponse. rewrite Hsrc. repeat step. Qed.

Lemma respects_visibility_check hello : respects (visibility_check hello).
Proof. unfold visibility_check. repeat step. Qed.

Lemma respects_HandleInitResponse packet header ospfHeader interface incomingIf :
  Ipv4Header.GetSource header = src ->
  respects (HandleInitResponse packet header ospfHeader interface incomingIf).
Proof.
  intros Hsrc. unfold HandleInitResponse. rewrite Hsrc.
  destruct (OspfHello.getNeighbors _); repeat step;
    try apply respects_visibility_check; repeat step.
Qed.

Lemma respects_HandleTwoWayResponse packet header ospfHeader interface incomingIf :
  Ipv4Header.GetSource header = src ->
  respects (HandleTwoWayResponse packet header ospfHeader interface incomingIf).
Proof.
  intros Hsrc. unfold HandleTwoWayResponse. rewrite Hsrc.
  destruct (OspfHello.getNeighbors _); repeat step;
    try apply respects_visibility_check; repeat step.
Qed.

Lemma respects_Receive packet header interface :
  Ipv4Header.GetSource header = src ->
  respects (Receive packet header interface).
Proof.
  intros Hsrc. unfold Receive.
  apply respects_bind; [destruct (packetInfoTag packet); step|intros incomingIf].
  apply respects_bind;
    [apply respects_when; now apply respects_HandleDownResponse|intros _].
  apply respects_bind;
    [apply respects_when; now apply respects_HandleInitResponse|intros _].
  apply respects_bind;
    [apply respects_when; now apply respects_HandleTwoWayResponse|intros _].
  apply respects_ret.
Qed.

Lemma respects_ipv4_interface i : respects (ipv4_interface i).
Proof. unfold ipv4_interface. repeat step. Qed.

Lemma respects_startDownState : respects startDownState.
Proof.
  unfold startDownState.
  do 2 (apply respects_bind; [apply respects_gets|intros ?]).
  apply respects_for_each. intros i.
  apply respects_bind; [apply respects_ipv4_interface|intros ifc].
  destruct (netDeviceIsLoopback ifc); [apply respects_ret|].
  apply respects_bind; [apply respects_gets|intros excl].
  apply respects_bind.
  { destruct (bool_decide _); [|apply respects_ret].
    apply respects_bind; [|intros ?; apply respects_ret].
    unfold SetForwarding.
    apply respects_bind; [apply respects_ipv4_interface|intros ?].
    apply respects_modify. intros st. apply R_ipv4. }
  intros activeInterface.
  apply respects_bind.
  { unfold GetNAddresses.
    apply respects_bind; [apply respects_ipv4_interface|intros ?; apply respects_ret]. }
  intros nAddresses. apply respects_for_each. intros j.
  apply respects_bind.
  { unfold ipv4_GetAddress.
    apply respects_bind; [apply respects_ipv4_interface|intros ?].
    destruct (_ !! _); [apply respects_ret|apply respects_abort]. }
  intros address. apply respects_when.
  apply respects_bind.
  { destruct a; [apply respects_ret|].
    apply respects_fold_m. intros full row.
    apply respects_fold_m. intros full' tableItems.
    apply respects_bind; [apply respects_GetAddress|intros ?; apply respects_ret]. }
  intros isInterfaceFull. apply respects_when. apply respects_SendDownPacket.
Qed.

End Stepwise.

(** ** What each member function computes *)

Lemma SendDownPacket_run address st :
  SendDownPacket address st = (Ok tt, after_send address OSPF_ALL_NODE States.DOWN st).
Proof.
  unfold SendDownPacket, after_send, compose_hello, Send, bind, gets, ret, when, modify.
  simpl. now destruct (scope_is_host address).
Qed.

Lemma SendInitPacket_run address daddr st :
  SendInitPacket address daddr st = (Ok tt, after_send address daddr States.INIT st).
Proof.
  unfold SendInitPacket, after_send, compose_hello, Send, bind, gets, ret, when, modify.
  simpl. now destruct (scope_is_host address).
Qed.

Lemma SendTwoWayPacket_run address daddr st :
  SendTwoWayPacket address daddr st = (Ok tt, after_send address daddr States.TWO_WAY st).
Proof.
  unfold SendTwoWayPacket, after_send, compose_hello, Send, bind, gets, ret, when, modify.
  simpl. now destruct (scope_is_host address).
Qed.

Lemma GetAddress_run interface index address st :
  Ipv4Interface.GetAddress interface index = Some address ->
  GetAddress interface index st = (Ok address, st).
Proof. unfold GetAddress. now intros ->. Qed.

Lemma visibility_check_run helloHeader st :
  visibility_check helloHeader st = (Ok (visible st helloHeader), st).
Proof.
  unfold visibility_check, visible, bind, gets, ret. simpl.
  rewrite TableFacts.scan_router_id_spec.
  destruct (OspfHello.getAreaId helloHeader =? m_areaId st); simpl;
    now rewrite ?andb_true_r, ?andb_false_r.
Qed.

Lemma visible_nonempty st helloHeader :
  visible st helloHeader = true -> OspfHello.getNeighbors helloHeader <> [].
Proof. unfold visible. intros H E. rewrite E in H. discriminate. Qed.

(** *** The Down handler *)

Lemma HandleDownResponse_other_area packet header ospfHeader interface incomingIf st :
  OspfHello.getAreaId (helloHeaderOf packet) <> m_areaId st ->
  HandleDownResponse packet header ospfHeader interface incomingIf st = (Ok tt, st).
Proof.
  intros H. apply Z.eqb_neq in H.
  unfold HandleDownResponse, bind, gets. simpl. now rewrite H.
Qed.

Lemma HandleDownResponse_other_mask
    packet header ospfHeader interface incomingIf address st :
  Ipv4Interface.GetAddress interface incomingIf = Some address ->
  OspfHeader.GetMask ospfHeader <> Ipv4InterfaceAddress.GetMask address ->
  HandleDownResponse packet header ospfHeader interface incomingIf st = (Ok tt, st).
Proof.
  intros Ha H. apply Z.eqb_neq in H.
  unfold HandleDownResponse, bind, gets. simpl.
  destruct (_ =? m_areaId st); [|reflexivity].
  rewrite (GetAddress_run _ _ _ _ Ha). unfold ret. now rewrite H.
Qed.

Lemma HandleDownResponse_accept
    packet header ospfHeader interface incomingIf address st :
  OspfHello.getAreaId (helloHeaderOf packet) = m_areaId st ->
  Ipv4Interface.GetAddress interface incomingIf = Some address ->
  OspfHeader.GetMask ospfHeader = Ipv4InterfaceAddress.GetMask address ->
  HandleDownResponse packet header ospfHeader interface incomingIf st
  = (Ok tt,
     after_send address (Ipv4Header.GetSource header) States.INIT
       (update_table
          (OspfNeighborTable.addNeighbors
             (Ipv4Header.GetSource header) (OspfHeader.GetMask ospfHeader)
             interface (OspfHeader.GetState ospfHeader)
             (OspfHello.getRouterId (helloHeaderOf packet))) st)).
Proof.
  intros Harea Ha Hmask.
  unfold HandleDownResponse, bind, gets. simpl.
  rewrite (proj2 (Z.eqb_eq _ _) Harea), (GetAddress_run _ _ _ _ Ha).
  unfold ret. rewrite (proj2 (Z.eqb_eq _ _) Hmask). simpl.
  unfold modify. rewrite (GetAddress_run _ _ _ _ Ha).
  apply SendInitPacket_run.
Qed.

(** *** The Init handler *)

Lemma HandleInitResponse_restart
    packet header ospfHeader interface incomingIf st :
  visible st (helloHeaderOf packet) = false ->
  HandleInitResponse packet header ospfHeader interface incomingIf st
  = (let* address := GetAddress interface incomingIf in SendDownPacket address) st.
Proof.
  intros Hv. unfold HandleInitResponse.
  destruct (OspfHello.getNeighbors (helloHeaderOf packet)) eqn:E; [reflexivity|].
  unfold bind at 1. now rewrite visibility_check_run, Hv.
Qed.

Lemma HandleInitResponse_not_visible
    packet header ospfHeader interface incomingIf address st :
  visible st (helloHeaderOf packet) = false ->
  Ipv4Interface.GetAddress interface incomingIf = Some address ->
  HandleInitResponse packet header ospfHeader interface incomingIf st
  = (Ok tt, after_send address OSPF_ALL_NODE States.DOWN st).
Proof.
  intros Hv Ha. rewrite HandleInitResponse_restart by assumption.
  unfold bind. rewrite (GetAddress_run _ _ _ _ Ha). apply SendDownPacket_run.
Qed.

Lemma HandleInitResponse_unknown
    packet header ospfHeader interface incomingIf address st :
  visible st (helloHeaderOf packet) = true ->
  known st (helloHeaderOf packet) = false ->
  Ipv4Interface.GetAddress interface incomingIf = Some address ->
  HandleInitResponse packet header ospfHeader interface incomingIf st
  = (Ok tt,
     after_send address (Ipv4Header.GetSource header) States.TWO_WAY
       (update_table
          (OspfNeighborTable.addNeighbors
             (Ipv4Header.GetSource header) (OspfHeader.GetMask ospfHeader)
             interface (OspfHeader.GetState ospfHeader)
             (OspfHello.getRouterId (helloHeaderOf packet))) st)).
Proof.
  intros Hv Hk Ha. pose proof (visible_nonempty _ _ Hv) as Hne.
  unfold HandleInitResponse, known in *.
  destruct (OspfHello.getNeighbors (helloHeaderOf packet)) eqn:E; [congruence|].
  unfold bind at 1. rewrite visibility_check_run, Hv.
  unfold bind at 1. unfold gets, OspfNeighborTable.getCurrentNeighbors.
  rewrite TableFacts.scan_router_id_spec, Hk.
  destruct (OspfNeighborTable.m_neighbors (m_neighbor_table st));
    unfold bind, modify; rewrite (GetAddress_run _ _ _ _ Ha);
    apply SendTwoWayPacket_run.
Qed.

Lemma HandleInitResponse_known
    packet header ospfHeader interface incomingIf address st :
  visible st (helloHeaderOf packet) = true ->
  known st (helloHeaderOf packet) = true ->
  Ipv4Interface.GetAddress interface incomingIf = Some address ->
  HandleInitResponse packet header ospfHeader interface incomingIf st
  = (Ok tt,
     after_send address (Ipv4Header.GetSource header) States.TWO_WAY
       (update_table (OspfNeighborTable.set_State States.INIT (m_routerId st)) st)).
Proof.
  intros Hv Hk Ha. pose proof (visible_nonempty _ _ Hv) as Hne.
  unfold HandleInitResponse, known in *.
  destruct (OspfHello.getNeighbors (helloHeaderOf packet)) eqn:E; [congruence|].
  unfold bind at 1. rewrite visibility_check_run, Hv.
  unfold bind at 1. unfold gets, OspfNeighborTable.getCurrentNeighbors.
  rewrite TableFacts.scan_router_id_spec, Hk.
  destruct (OspfNeighborTable.m_neighbors (m_neighbor_table st)) eqn:Et;
    [discriminate|].
  unfold bind, modify. simpl. rewrite (GetAddress_run _ _ _ _ Ha).
  apply SendTwoWayPacket_run.
Qed.

(** *** The Two-Way handler *)

Lemma HandleTwoWayResponse_restart
    packet header ospfHeader interface incomingIf st :
  visible st (helloHeaderOf packet) = false ->
  HandleTwoWayResponse packet header ospfHeader interface incomingIf st
  = (let* address := GetAddress interface incomingIf in SendDownPacket address) st.
Proof.
  intros Hv. unfold HandleTwoWayResponse.
  destruct (OspfHello.getNeighbors (helloHeaderOf packet)) eqn:E; [reflexivity|].
  unfold bind at 1. now rewrite visibility_check_run, Hv.
Qed.

Lemma HandleTwoWayResponse_not_visible
    packet header ospfHeader interface incomingIf address st :
  visible st (helloHeaderOf packet) = false ->
  Ipv4Interface.GetAddress interface incomingIf = Some address ->
  HandleTwoWayResponse packet header ospfHeader interface incomingIf st
  = (Ok tt, after_send address OSPF_ALL_NODE States.DOWN st).
Proof.
  intros Hv Ha. rewrite HandleTwoWayResponse_restart by assumption.
  unfold bind. rewrite (GetAddress_run _ _ _ _ Ha). apply SendDownPacket_run.
Qed.

Lemma HandleTwoWayResponse_unknown
    packet header ospfHeader interface incomingIf address st :
  visible st (helloHeaderOf packet) = true ->
  known st (helloHeaderOf packet) = false ->
  Ipv4Interface.GetAddress interface incomingIf = Some address ->
  HandleTwoWayResponse packet header ospfHeader interface incomingIf st
  = (Ok tt, after_send address OSPF_ALL_NODE States.DOWN st).
Proof.
  intros Hv Hk Ha. pose proof (visible_nonempty _ _ Hv) as Hne.
  unfold HandleTwoWayResponse, known in *.
  destruct (OspfHello.getNeighbors (helloHeaderOf packet)) eqn:E; [congruence|].
  unfold bind at 1. rewrite visibility_check_run, Hv.
  unfold bind at 1. unfold gets, OspfNeighborTable.getCurrentNeighbors.
  rewrite TableFacts.scan_router_id_spec, Hk.
  destruct (OspfNeighborTable.m_neighbors (m_neighbor_table st));
    unfold bind; rewrite (GetAddress_run _ _ _ _ Ha);
    apply SendDownPacket_run.
Qed.

(** The sender is known: the handler reads the state recorded under the
    local router id and compares it with Two-Way, whatever the lookup
    found. *)
Lemma HandleTwoWayResponse_known
    packet header ospfHeader interface incomingIf st :
  visible st (helloHeaderOf packet) = true ->
  known st (helloHeaderOf packet) = true ->
  HandleTwoWayResponse packet header ospfHeader interface incomingIf st
  = if reads_state (OspfNeighborTable.get_State (m_routerId st) (m_neighbor_table st))
                   States.TWO_WAY
    then (Ok tt, st)
    else (modify (update_table
                    (OspfNeighborTable.set_State States.TWO_WAY (m_routerId st))) ;;
          let* address := GetAddress interface incomingIf in
          SendTwoWayPacket address (Ipv4Header.GetSource header)) st.
Proof.
  intros Hv Hk. pose proof (visible_nonempty _ _ Hv) as Hne.
  unfold HandleTwoWayResponse, known in *.
  destruct (OspfHello.getNeighbors (helloHeaderOf packet)) eqn:E; [congruence|].
  unfold bind at 1. rewrite visibility_check_run, Hv.
  unfold bind at 1. unfold gets at 1, OspfNeighborTable.getCurrentNeighbors.
  rewrite TableFacts.scan_router_id_spec, Hk.
  destruct (OspfNeighborTable.m_neighbors (m_neighbor_table st)) eqn:Et;
    [discriminate|].
  unfold bind at 1. unfold gets at 1.
  unfold bind at 1. unfold gets at 1.
  now destruct (reads_state _ _).
Qed.

Lemma HandleTwoWayResponse_known_terminal
    packet header ospfHeader interface incomingIf st :
  visible st (helloHeaderOf packet) = true ->
  known st (helloHeaderOf packet) = true ->
  OspfNeighborTable.get_State (m_routerId st) (m_neighbor_table st)
  = Some States.TWO_WAY ->
  HandleTwoWayResponse packet header ospfHeader interface incomingIf st = (Ok tt, st).
Proof.
  intros Hv Hk Hs. rewrite HandleTwoWayResponse_known by assumption.
  now rewrite Hs.
Qed.

Lemma HandleTwoWayResponse_known_advance
    packet header ospfHeader interface incomingIf address st :
  visible st (helloHeaderOf packet) = true ->
  known st (helloHeaderOf packet) = true ->
  OspfNeighborTable.get_State (m_routerId st) (m_neighbor_table st)
  <> Some States.TWO_WAY ->
  Ipv4Interface.GetAddress interface incomingIf = Some address ->
  HandleTwoWayResponse packet header ospfHeader interface incomingIf st
  = (Ok tt,
     after_send address (Ipv4Header.GetSource header) States.TWO_WAY
       (update_table (OspfNeighborTable.set_State States.TWO_WAY (m_routerId st)) st)).
Proof.
  intros Hv Hk Hs Ha. rewrite HandleTwoWayResponse_known by assumption.
  destruct (reads_state _ _) eqn:Er.
  - exfalso. apply Hs. unfold reads_state in Er.
    destruct (OspfNeighborTable.get_State _ _) as [s|]; [|discriminate].
    apply Z.eqb_eq in Er. now subst.
  - unfold bind, modify. simpl. rewrite (GetAddress_run _ _ _ _ Ha).
    apply SendTwoWayPacket_run.
Qed.

(** *** Dispatch in [Receive] *)

Lemma Receive_down packet header interface incomingIf st :
  packetInfoTag packet = Some incomingIf ->
  OspfHeader.GetState (ospfHeaderOf packet) = States.DOWN ->
  Receive packet header interface st
  = finish (HandleDownResponse packet header (ospfHeaderOf packet) interface incomingIf st).
Proof.
  intros Ht Hs. unfold Receive. rewrite Ht, Hs. unfold bind at 1. unfold ret at 1.
  unfold bind, when, finish. simpl.
  now destruct (HandleDownResponse _ _ _ _ _ st) as [[[]|e] st'].
Qed.

Lemma Receive_init packet header interface incomingIf st :
  packetInfoTag packet = Some incomingIf ->
  OspfHeader.GetState (ospfHeaderOf packet) = States.INIT ->
  Receive packet header interface st
  = finish (HandleInitResponse packet header (ospfHeaderOf packet) interface incomingIf st).
Proof.
  intros Ht Hs. unfold Receive. rewrite Ht, Hs. unfold bind at 1. unfold ret at 1.
  unfold bind, when, finish. simpl.
  now destruct (HandleInitResponse _ _ _ _ _ st) as [[[]|e] st'].
Qed.

Lemma Receive_two_way packet header interface incomingIf st :
  packetInfoTag packet = Some incomingIf ->
  OspfHeader.GetState (ospfHeaderOf packet) = States.TWO_WAY ->
  Receive packet header interface st
  = finish (HandleTwoWayResponse packet header (ospfHeaderOf packet) interface incomingIf st).
Proof.
  intros Ht Hs. unfold Receive. rewrite Ht, Hs. unfold bind at 1. unfold ret at 1.
  unfold bind, when, finish. simpl.
  now destruct (HandleTwoWayResponse _ _ _ _ _ st) as [[[]|e] st'].
Qed.

(** A header state other than Down, Init and Two-Way is not dispatched. *)
Lemma Receive_other packet header interface incomingIf st :
  packetInfoTag packet = Some incomingIf ->
  OspfHeader.GetState (ospfHeaderOf packet) <> States.DOWN ->
  OspfHeader.GetState (ospfHeaderOf packet) <> States.INIT ->
  OspfHeader.GetState (ospfHeaderOf packet) <> States.TWO_WAY ->
  Receive packet header interface st = (Ok RX_OK, st).
Proof.
  intros Ht H0 H2 H3. unfold Receive. rewrite Ht.
  apply Z.eqb_neq in H0, H2, H3. rewrite H0, H2, H3. reflexivity.
Qed.

(** *** Effects of a composer on table and log *)

Lemma after_send_table address daddr currentState st :
  m_neighbor_table (after_send address daddr currentState st) = m_neighbor_table st.
Proof. unfold after_send. now destruct (scope_is_host address). Qed.

Lemma after_send_sends address daddr currentState st :
  sends_unless_host address (composed address daddr currentState st)
    st (after_send address daddr currentState st).
Proof.
  unfold sends_unless_host, after_send, scope_is_host. split; intros H.
  - now rewrite bool_decide_eq_false_2.
  - now rewrite bool_decide_eq_true_2.
Qed.

(** The restart reply leaves the table alone, also when the interface
    has no address at the index. *)
Lemma restart_keeps_table interface incomingIf st :
  m_neighbor_table
    (snd ((let* address := GetAddress interface incomingIf in
           SendDownPacket address) st))
  = m_neighbor_table st.
Proof.
  unfold bind, GetAddress.
  destruct (Ipv4Interface.GetAddress interface incomingIf) as [address|]; simpl.
  - rewrite SendDownPacket_run. simpl. apply after_send_table.
  - reflexivity.
Qed.

Lemma other_area_not_visible st helloHeader :
  OspfHello.getAreaId helloHeader <> m_areaId st -> visible st helloHeader = false.
Proof.
  intros H. unfold visible. apply Z.eqb_neq in H. rewrite H. apply andb_false_r.
Qed.

Lemma empty_snapshot_not_visible st helloHeader :
  OspfHello.getNeighbors helloHeader = [] -> visible st helloHeader = false.
Proof. intros H. unfold visible. now rewrite H. Qed.

Lemma finish_state r : snd (finish r) = snd r.
Proof. now destruct r as [[[]|e] st]. Qed.

Lemma finish_ok st : finish (Ok tt, st) = (Ok RX_OK, st).
Proof. reflexivity. Qed.

(** * The claims *)

(** C9. A packet delivered to [Receive] without an incoming-interface
    tag makes the run abort before any dispatch: the outcome is the fatal
    error of the missing tag and the object, table and log included, is
    exactly as before. *)
Theorem Receive_without_tag_aborts packet header interface st :
  packetInfoTag packet = None ->
  Receive packet header interface st = (Abort NoIncomingInterface, st).
Proof. intros H. unfold Receive. rewrite H. reflexivity. Qed.

Lemma Receive_without_tag_aborts_witness :
  Receive Scenario.untagged_down Scenario.from_2 Scenario.link1 Scenario.router1
  = (Abort NoIncomingInterface, Scenario.router1).
Proof. apply Receive_without_tag_aborts. reflexivity. Defined.

(** C7. A Down-state packet whose advertised mask differs from the mask
    of the receiving interface's address is handled without any change:
    the run completes and the object, table and log included, is exactly
    as before. *)
Theorem down_mask_mismatch_ignored packet header interface incomingIf address st :
  packetInfoTag packet = Some incomingIf ->
  OspfHeader.GetState (ospfHeaderOf packet) = States.DOWN ->
  Ipv4Interface.GetAddress interface incomingIf = Some address ->
  OspfHeader.GetMask (ospfHeaderOf packet) <> Ipv4InterfaceAddress.GetMask address ->
  Receive packet header interface st = (Ok RX_OK, st).
Proof.
  intros Ht Hs Ha Hm. rewrite (Receive_down _ _ _ _ _ Ht Hs).
  now rewrite (HandleDownResponse_other_mask _ _ _ _ _ _ _ Ha Hm).
Qed.

Lemma down_mask_mismatch_ignored_witness :
  Receive Scenario.down_mask8 Scenario.from_2 Scenario.link1 Scenario.router1
  = (Ok RX_OK, Scenario.router1).
Proof.
  apply (down_mask_mismatch_ignored _ _ _ 0%nat Scenario.addr1).
  - reflexivity.
  - reflexivity.
  - reflexivity.
  - vm_compute. discriminate.
Defined.

(** C1, as the code has it. A packet whose area differs from the local
    area never changes the neighbour table. When its header asserts Down
    nothing is sent. When its header asserts Init or Two-Way the restart
    reply is sent all the same: one Down-state packet to 224.0.0.5 from
    the receiving interface's address, unless that address is
    host-scoped. *)
Theorem area_mismatch_effects packet header interface incomingIf st :
  packetInfoTag packet = Some incomingIf ->
  OspfHello.getAreaId (helloHeaderOf packet) <> m_areaId st ->
  let run := Receive packet header interface st in
  m_neighbor_table (snd run) = m_neighbor_table st /\
  (OspfHeader.GetState (ospfHeaderOf packet) = States.DOWN ->
   run = (Ok RX_OK, st)) /\
  (OspfHeader.GetState (ospfHeaderOf packet) = States.INIT \/
   OspfHeader.GetState (ospfHeaderOf packet) = States.TWO_WAY ->
   forall address,
     Ipv4Interface.GetAddress interface incomingIf = Some address ->
     fst run = Ok RX_OK /\
     sends_unless_host address
       (composed address OSPF_ALL_NODE States.DOWN st) st (snd run)).
Proof.
  intros Ht Harea run. subst run.
  pose proof (other_area_not_visible _ _ Harea) as Hv.
  split; [|split].
  - destruct (decide (OspfHeader.GetState (ospfHeaderOf packet) = States.DOWN)) as [H0|H0];
      [|destruct (decide (OspfHeader.GetState (ospfHeaderOf packet) = States.INIT)) as [H2|H2];
        [|destruct (decide (OspfHeader.GetState (ospfHeaderOf packet) = States.TWO_WAY)) as [H3|H3]]].
    + rewrite (Receive_down _ _ _ _ _ Ht H0).
      now rewrite HandleDownResponse_other_area.
    + rewrite (Receive_init _ _ _ _ _ Ht H2), finish_state.
      rewrite HandleInitResponse_restart by assumption. apply restart_keeps_table.
    + rewrite (Receive_two_way _ _ _ _ _ Ht H3), finish_state.
      rewrite HandleTwoWayResponse_restart by assumption. apply restart_keeps_table.
    + now rewrite (Receive_other _ _ _ _ _ Ht H0 H2 H3).
  - intros H0. rewrite (Receive_down _ _ _ _ _ Ht H0).
    now rewrite HandleDownResponse_other_area.
  - intros [H2|H3] address Ha.
    + rewrite (Receive_init _ _ _ _ _ Ht H2).
      rewrite (HandleInitResponse_not_visible _ _ _ _ _ _ _ Hv Ha). simpl.
      split; [reflexivity|apply after_send_sends].
    + rewrite (Receive_two_way _ _ _ _ _ Ht H3).
      rewrite (HandleTwoWayResponse_not_visible _ _ _ _ _ _ _ Hv Ha). simpl.
      split; [reflexivity|apply after_send_sends].
Qed.

(** C1 as stated fails: router 1 (area 0) receives an Init-state packet
    of area 7 on its link; the log of the down target was empty and now
    holds a Down-state packet for 224.0.0.5. *)
Lemma area_mismatch_init_is_answered :
  OspfHello.getAreaId (helloHeaderOf Scenario.init_other_area)
  <> m_areaId Scenario.router1 /\
  m_downTarget Scenario.router1 = [] /\
  m_downTarget
    (snd (Receive Scenario.init_other_area Scenario.from_2_unicast
                  Scenario.link1 Scenario.router1))
  = [composed Scenario.addr1 OSPF_ALL_NODE States.DOWN Scenario.router1].
Proof. vm_compute. repeat split. discriminate. Qed.

Lemma area_mismatch_effects_witness :
  m_neighbor_table
    (snd (Receive Scenario.two_way_other_area Scenario.from_2_unicast
                  Scenario.link1 Scenario.router1_knows_2))
  = m_neighbor_table Scenario.router1_knows_2 /\
  fst (Receive Scenario.two_way_other_area Scenario.from_2_unicast
               Scenario.link1 Scenario.router1_knows_2)
  = Ok RX_OK /\
  m_downTarget
    (snd (Receive Scenario.two_way_other_area Scenario.from_2_unicast
                  Scenario.link1 Scenario.router1_knows_2))
  = [composed Scenario.addr1 OSPF_ALL_NODE States.DOWN Scenario.router1_knows_2].
Proof.
  destruct (area_mismatch_effects Scenario.two_way_other_area Scenario.from_2_unicast
              Scenario.link1 0%nat Scenario.router1_knows_2) as [Htable [_ Hreply]].
  - reflexivity.
  - vm_compute. discriminate.
  - split; [exact Htable|].
    destruct (Hreply (or_intror eq_refl) Scenario.addr1 eq_refl) as [Hok [Hsent _]].
    split; [exact Hok|]. apply Hsent. vm_compute. discriminate.
Defined.

(** C5, as the code has it. An Init-state packet with an empty snapshot
    leaves the neighbour table unchanged whatever it holds; the
    Down-state reply (to 224.0.0.5, from the receiving interface's
    address, carrying the unchanged table) is sent when that address is
    not host-scoped, and nothing is sent when it is. *)
Theorem init_empty_snapshot_restarts packet header interface incomingIf address st :
  packetInfoTag packet = Some incomingIf ->
  OspfHeader.GetState (ospfHeaderOf packet) = States.INIT ->
  OspfHello.getNeighbors (helloHeaderOf packet) = [] ->
  Ipv4Interface.GetAddress interface incomingIf = Some address ->
  let run := Receive packet header interface st in
  fst run = Ok RX_OK /\
  m_neighbor_table (snd run) = m_neighbor_table st /\
  sends_unless_host address
    (composed address OSPF_ALL_NODE States.DOWN st) st (snd run).
Proof.
  intros Ht Hs He Ha run. subst run.
  rewrite (Receive_init _ _ _ _ _ Ht Hs).
  rewrite (HandleInitResponse_not_visible _ _ _ _ _ _ _
             (empty_snapshot_not_visible _ _ He) Ha).
  simpl. rewrite after_send_table.
  repeat split; try reflexivity; apply after_send_sends; assumption.
Qed.

(** C5 as stated fails: the same packet arriving on the interface that
    carries the host-scoped address 127.0.0.1 is not answered. *)
Lemma init_empty_snapshot_unanswered_on_host_address :
  OspfHello.getNeighbors (helloHeaderOf Scenario.init_empty) = [] /\
  Receive Scenario.init_empty Scenario.from_2_unicast Scenario.lo Scenario.router1
  = (Ok RX_OK, Scenario.router1).
Proof. split; reflexivity. Qed.

Lemma init_empty_snapshot_restarts_witness :
  fst (Receive Scenario.init_empty Scenario.from_2_unicast Scenario.link1
               Scenario.router1_knows_2) = Ok RX_OK /\
  m_neighbor_table
    (snd (Receive Scenario.init_empty Scenario.from_2_unicast Scenario.link1
                  Scenario.router1_knows_2))
  = m_neighbor_table Scenario.router1_knows_2 /\
  m_downTarget
    (snd (Receive Scenario.init_empty Scenario.from_2_unicast Scenario.link1
                  Scenario.router1_knows_2))
  = m_downTarget Scenario.router1_knows_2
    ++ [composed Scenario.addr1 OSPF_ALL_NODE States.DOWN Scenario.router1_knows_2].
Proof.
  destruct (init_empty_snapshot_restarts Scenario.init_empty Scenario.from_2_unicast
              Scenario.link1 0%nat Scenario.addr1 Scenario.router1_knows_2)
    as [Hok [Htable [Hsent _]]].
  - reflexivity.
  - reflexivity.
  - reflexivity.
  - reflexivity.
  - split; [exact Hok|split; [exact Htable|]].
    apply Hsent. vm_compute. discriminate.
Defined.

(** C2, as the code has it. A Down-state packet of the local area whose
    mask equals the mask of the receiving interface's address, handled
    with an empty table, leaves exactly one record: the sender's source
    address, mask, interface and router id at state Down. When the
    receiving address is not host-scoped, exactly one call reaches the
    down target: an Init-state discovery packet from the receiving
    address to the packet's source address, carrying the new table.
    When it is host-scoped, no call reaches the down target. *)
Theorem down_on_empty_table packet header interface incomingIf address st :
  packetInfoTag packet = Some incomingIf ->
  OspfHeader.GetState (ospfHeaderOf packet) = States.DOWN ->
  OspfHello.getAreaId (helloHeaderOf packet) = m_areaId st ->
  Ipv4Interface.GetAddress interface incomingIf = Some address ->
  OspfHeader.GetMask (ospfHeaderOf packet) = Ipv4InterfaceAddress.GetMask address ->
  OspfNeighborTable.m_neighbors (m_neighbor_table st) = [] ->
  let run := Receive packet header interface st in
  let record :=
    OspfNeighborTable.mkNeighbor
      (Ipv4Header.GetSource header) (OspfHeader.GetMask (ospfHeaderOf packet))
      interface States.DOWN (OspfHello.getRouterId (helloHeaderOf packet)) in
  let recorded := update_table (fun _ => OspfNeighborTable.mkTable [[record]]) st in
  fst run = Ok RX_OK /\
  OspfNeighborTable.m_neighbors (m_neighbor_table (snd run)) = [[record]] /\
  sends_unless_host address
    (composed address (Ipv4Header.GetSource header) States.INIT recorded)
    st (snd run).
Proof.
  intros Ht Hs Harea Ha Hmask Hempty run record recorded.
  subst run record recorded.
  rewrite (Receive_down _ _ _ _ _ Ht Hs).
  rewrite (HandleDownResponse_accept _ _ _ _ _ _ _ Harea Ha Hmask).
  rewrite finish_ok. simpl fst. simpl snd.
  assert (Hadd :
    update_table
      (OspfNeighborTable.addNeighbors
         (Ipv4Header.GetSource header) (OspfHeader.GetMask (ospfHeaderOf packet))
         interface (OspfHeader.GetState (ospfHeaderOf packet))
         (OspfHello.getRouterId (helloHeaderOf packet))) st
    = update_table
        (fun _ => OspfNeighborTable.mkTable
           [[OspfNeighborTable.mkNeighbor
               (Ipv4Header.GetSource header) (OspfHeader.GetMask (ospfHeaderOf packet))
               interface States.DOWN (OspfHello.getRouterId (helloHeaderOf packet))]])
        st).
  { unfold update_table. f_equal.
    rewrite TableFacts.addNeighbors_absent by (rewrite Hempty; reflexivity).
    now rewrite Hempty, Hs. }
  rewrite Hadd, after_send_table.
  split; [reflexivity|]. split; [reflexivity|].
  pose proof (after_send_sends address (Ipv4Header.GetSource header) States.INIT
                (update_table
                   (fun _ => OspfNeighborTable.mkTable
                      [[OspfNeighborTable.mkNeighbor
                          (Ipv4Header.GetSource header)
                          (OspfHeader.GetMask (ospfHeaderOf packet))
                          interface States.DOWN
                          (OspfHello.getRouterId (helloHeaderOf packet))]]) st))
    as [Hsend Hquiet].
  split; [exact Hsend|exact Hquiet].
Qed.

(** C2 as stated fails: router 1 has an empty table and receives, on the
    interface that carries the host-scoped 127.0.0.1/8, a Down-state
    packet of its area advertising the mask /8. The run completes, but
    no packet reaches the down target. *)
Lemma down_on_host_address_sends_nothing :
  OspfHello.getAreaId (helloHeaderOf Scenario.down_mask8) = m_areaId Scenario.router1 /\
  Ipv4Interface.GetAddress Scenario.lo 0%nat = Some Scenario.loopback /\
  OspfHeader.GetMask (ospfHeaderOf Scenario.down_mask8)
  = Ipv4InterfaceAddress.GetMask Scenario.loopback /\
  OspfNeighborTable.m_neighbors (m_neighbor_table Scenario.router1) = [] /\
  fst (Receive Scenario.down_mask8 Scenario.from_2_unicast Scenario.lo Scenario.router1)
  = Ok RX_OK /\
  m_downTarget
    (snd (Receive Scenario.down_mask8 Scenario.from_2_unicast Scenario.lo Scenario.router1))
  = [].
Proof. repeat split; reflexivity. Qed.

Lemma down_on_empty_table_witness :
  fst (Receive Scenario.down_valid Scenario.from_2 Scenario.link1 Scenario.router1)
  = Ok RX_OK /\
  OspfNeighborTable.m_neighbors
    (m_neighbor_table
       (snd (Receive Scenario.down_valid Scenario.from_2 Scenario.link1 Scenario.router1)))
  = [[Scenario.record_of_2]] /\
  m_downTarget
    (snd (Receive Scenario.down_valid Scenario.from_2 Scenario.link1 Scenario.router1))
  = [composed Scenario.addr1 (dotted 10 1 1 2) States.INIT Scenario.router1_knows_2].
Proof.
  destruct (down_on_empty_table Scenario.down_valid Scenario.from_2 Scenario.link1
              0%nat Scenario.addr1 Scenario.router1)
    as [Hok [Htable [Hsent _]]].
  - reflexivity.
  - reflexivity.
  - reflexivity.
  - reflexivity.
  - reflexivity.
  - reflexivity.
  - split; [exact Hok|split; [exact Htable|]].
    apply Hsent. vm_compute. discriminate.
Defined.

(** C4, as the code has it. An Init-state packet that passes the
    mutual-visibility proof, from a sender whose router id is already in
    the local table, makes the handler apply [set_State] with Init to
    the local router's own id (the sender's id is not used as the key),
    and then send one Two-Way packet to the packet's source address when
    the receiving address is not host-scoped, and none when it is. *)
Theorem init_from_known_sender packet header interface incomingIf address st :
  packetInfoTag packet = Some incomingIf ->
  OspfHeader.GetState (ospfHeaderOf packet) = States.INIT ->
  visible st (helloHeaderOf packet) = true ->
  known st (helloHeaderOf packet) = true ->
  Ipv4Interface.GetAddress interface incomingIf = Some address ->
  let run := Receive packet header interface st in
  let marked :=
    update_table (OspfNeighborTable.set_State States.INIT (m_routerId st)) st in
  fst run = Ok RX_OK /\
  m_neighbor_table (snd run)
  = OspfNeighborTable.set_State States.INIT (m_routerId st) (m_neighbor_table st) /\
  sends_unless_host address
    (composed address (Ipv4Header.GetSource header) States.TWO_WAY marked)
    st (snd run).
Proof.
  intros Ht Hs Hv Hk Ha run marked. subst run marked.
  rewrite (Receive_init _ _ _ _ _ Ht Hs).
  rewrite (HandleInitResponse_known _ _ _ _ _ _ _ Hv Hk Ha).
  rewrite finish_ok. simpl fst. simpl snd.
  rewrite after_send_table.
  split; [reflexivity|]. split; [reflexivity|].
  exact (after_send_sends address (Ipv4Header.GetSource header) States.TWO_WAY
           (update_table (OspfNeighborTable.set_State States.INIT (m_routerId st)) st)).
Qed.

(** C4 as stated fails: router 1 knows router 2 and receives its Init
    packet, which lists router 1, on the interface that carries the
    host-scoped 127.0.0.1; no Two-Way packet is sent. *)
Lemma init_from_known_sender_unanswered_on_host_address :
  visible Scenario.router1_knows_2 (helloHeaderOf Scenario.init_seen) = true /\
  known Scenario.router1_knows_2 (helloHeaderOf Scenario.init_seen) = true /\
  fst (Receive Scenario.init_seen Scenario.from_2_unicast Scenario.lo
               Scenario.router1_knows_2) = Ok RX_OK /\
  m_downTarget
    (snd (Receive Scenario.init_seen Scenario.from_2_unicast Scenario.lo
                  Scenario.router1_knows_2))
  = [].
Proof. repeat split; reflexivity. Qed.

Lemma init_from_known_sender_witness :
  fst (Receive Scenario.init_seen Scenario.from_2_unicast Scenario.link1
               Scenario.router1_knows_2) = Ok RX_OK /\
  m_neighbor_table
    (snd (Receive Scenario.init_seen Scenario.from_2_unicast Scenario.link1
                  Scenario.router1_knows_2))
  = OspfNeighborTable.set_State States.INIT 1 (m_neighbor_table Scenario.router1_knows_2) /\
  m_downTarget
    (snd (Receive Scenario.init_seen Scenario.from_2_unicast Scenario.link1
                  Scenario.router1_knows_2))
  = [composed Scenario.addr1 (dotted 10 1 1 2) States.TWO_WAY Scenario.router1_knows_2].
Proof.
  destruct (init_from_known_sender Scenario.init_seen Scenario.from_2_unicast
              Scenario.link1 0%nat Scenario.addr1 Scenario.router1_knows_2)
    as [Hok [Htable [Hsent _]]].
  - reflexivity.
  - reflexivity.
  - reflexivity.
  - reflexivity.
  - reflexivity.
  - split; [exact Hok|split; [exact Htable|]].
    apply Hsent. vm_compute. discriminate.
Defined.

(** C3, as the code has it. A Two-Way-state packet that passes the
    mutual-visibility proof, from a sender whose router id is already in
    the local table: if the state recorded under the local router id
    reads Two-Way, nothing is sent and the object is unchanged;
    otherwise [set_State] with Two-Way is applied to the local router id
    and one Two-Way packet is sent to the packet's source address when
    the receiving address is not host-scoped, and none when it is. *)
Theorem two_way_from_known_sender packet header interface incomingIf st :
  packetInfoTag packet = Some incomingIf ->
  OspfHeader.GetState (ospfHeaderOf packet) = States.TWO_WAY ->
  visible st (helloHeaderOf packet) = true ->
  known st (helloHeaderOf packet) = true ->
  let run := Receive packet header interface st in
  let marked :=
    update_table (OspfNeighborTable.set_State States.TWO_WAY (m_routerId st)) st in
  (OspfNeighborTable.get_State (m_routerId st) (m_neighbor_table st)
   = Some States.TWO_WAY ->
   run = (Ok RX_OK, st)) /\
  (OspfNeighborTable.get_State (m_routerId st) (m_neighbor_table st)
   <> Some States.TWO_WAY ->
   forall address,
     Ipv4Interface.GetAddress interface incomingIf = Some address ->
     fst run = Ok RX_OK /\
     m_neighbor_table (snd run)
     = OspfNeighborTable.set_State States.TWO_WAY (m_routerId st) (m_neighbor_table st) /\
     sends_unless_host address
       (composed address (Ipv4Header.GetSource header) States.TWO_WAY marked)
       st (snd run)).
Proof.
  intros Ht Hs Hv Hk run marked. subst run marked.
  rewrite (Receive_two_way _ _ _ _ _ Ht Hs). split.
  - intros Hstate.
    now rewrite (HandleTwoWayResponse_known_terminal _ _ _ _ _ _ Hv Hk Hstate).
  - intros Hstate address Ha.
    rewrite (HandleTwoWayResponse_known_advance _ _ _ _ _ _ _ Hv Hk Hstate Ha).
    rewrite finish_ok. simpl fst. simpl snd.
    rewrite after_send_table.
    split; [reflexivity|]. split; [reflexivity|].
    exact (after_send_sends address (Ipv4Header.GetSource header) States.TWO_WAY
             (update_table
                (OspfNeighborTable.set_State States.TWO_WAY (m_routerId st)) st)).
Qed.

(** C3 as stated fails: router 1 knows router 2, the state under its own
    id does not read Two-Way, and router 2's Two-Way packet, which lists
    router 1, arrives on the interface that carries the host-scoped
    127.0.0.1; no Two-Way packet is sent in reply. *)
Lemma two_way_from_known_sender_unanswered_on_host_address :
  visible Scenario.router1_knows_2 (helloHeaderOf Scenario.two_way_seen) = true /\
  known Scenario.router1_knows_2 (helloHeaderOf Scenario.two_way_seen) = true /\
  OspfNeighborTable.get_State (m_routerId Scenario.router1_knows_2)
    (m_neighbor_table Scenario.router1_knows_2) <> Some States.TWO_WAY /\
  fst (Receive Scenario.two_way_seen Scenario.from_2_unicast Scenario.lo
               Scenario.router1_knows_2) = Ok RX_OK /\
  m_downTarget
    (snd (Receive Scenario.two_way_seen Scenario.from_2_unicast Scenario.lo
                  Scenario.router1_knows_2))
  = [].
Proof. repeat split; try reflexivity. vm_compute. discriminate. Qed.

Lemma two_way_from_known_sender_witness :
  Receive Scenario.two_way_seen Scenario.from_2_unicast Scenario.link1
          Scenario.router1_settled
  = (Ok RX_OK, Scenario.router1_settled) /\
  fst (Receive Scenario.two_way_seen Scenario.from_2_unicast Scenario.link1
               Scenario.router1_started) = Ok RX_OK /\
  m_neighbor_table
    (snd (Receive Scenario.two_way_seen Scenario.from_2_unicast Scenario.link1
                  Scenario.router1_started))
  = m_neighbor_table Scenario.router1_settled /\
  m_downTarget
    (snd (Receive Scenario.two_way_seen Scenario.from_2_unicast Scenario.link1
                  Scenario.router1_started))
  = [composed Scenario.addr1 (dotted 10 1 1 2) States.TWO_WAY Scenario.router1_settled].
Proof.
  split.
  - apply (two_way_from_known_sender Scenario.two_way_seen Scenario.from_2_unicast
             Scenario.link1 0%nat Scenario.router1_settled);
      reflexivity.
  - destruct (two_way_from_known_sender Scenario.two_way_seen Scenario.from_2_unicast
                Scenario.link1 0%nat Scenario.router1_started) as [_ Hadvance].
    + reflexivity.
    + reflexivity.
    + reflexivity.
    + reflexivity.
    + destruct (Hadvance ltac:(vm_compute; discriminate) Scenario.addr1 eq_refl)
        as [Hok [Htable [Hsent _]]].
      split; [exact Hok|split; [exact Htable|]].
      apply Hsent. vm_compute. discriminate.
Defined.





(** ** Uniqueness of router ids *)

Lemma keeps_unique_refl st : keeps_unique st st.
Proof. unfold keeps_unique. auto. Qed.

Lemma keeps_unique_trans a b c :
  keeps_unique a b -> keeps_unique b c -> keeps_unique a c.
Proof. unfold keeps_unique. auto. Qed.

Lemma keeps_unique_same_table st st' :
  m_neighbor_table st' = m_neighbor_table st -> keeps_unique st st'.
Proof. unfold keeps_unique. now intros ->. Qed.

Lemma perform_keeps_unique c st : keeps_unique st (perform c st).
Proof.
  destruct c; simpl.
  - apply (respects_Receive keeps_unique keeps_unique_refl keeps_unique_trans
             (Ipv4Header.GetSource header) (fun _ => True)); auto.
    + intros c st0 _. now apply keeps_unique_same_table.
    + intros a m i s rid st0 U. now apply TableFacts.unique_addNeighbors.
    + intros s rid st0 U. now apply TableFacts.unique_set_State.
  - apply (respects_startDownState keeps_unique keeps_unique_refl keeps_unique_trans
             (fun _ => True)); auto.
    + intros c st0 _. now apply keeps_unique_same_table.
    + intros ipv4 st0. now apply keeps_unique_same_table.
  - now apply keeps_unique_same_table.
  - now apply keeps_unique_same_table.
  - now apply keeps_unique_same_table.
  - now apply keeps_unique_same_table.
Qed.

Lemma reachable_unique st :
  reachable st -> OspfNeighborTable.unique_ids (m_neighbor_table st).
Proof.
  induction 1 as [ipv4 excl rid aid|st c _ IH].
  - unfold OspfNeighborTable.unique_ids. simpl. apply NoDup_nil_2.
  - now apply perform_keeps_unique.
Qed.

Lemma find_after_absent {A} (p : A -> bool) (l : list A) (x : A) :
  existsb p l = false -> List.find p (l ++ [x]) = if p x then Some x else None.
Proof.
  induction l as [|y l IH]; simpl; [reflexivity|].
  destruct (p y); simpl; [discriminate|exact IH].
Qed.

(** C8. Starting from a table with at most one record per router id,
    adding the same router id twice gives the table of the first call:
    it holds exactly one record for that id, and when the id was new that
    record carries the attributes of the first call; when the id was
    there already, the table is not changed at all. Every call on the
    protocol object, the handlers included, keeps the router ids unique,
    so they are unique in every state the object can reach. *)
Theorem neighbor_ids_stay_unique st c a1 m1 i1 s1 a2 m2 i2 s2 rid :
  OspfNeighborTable.unique_ids (m_neighbor_table st) ->
  let tbl := m_neighbor_table st in
  let once := OspfNeighborTable.addNeighbors a1 m1 i1 s1 rid tbl in
  let twice := OspfNeighborTable.addNeighbors a2 m2 i2 s2 rid once in
  twice = once /\
  OspfNeighborTable.count_id rid twice = 1%nat /\
  OspfNeighborTable.unique_ids twice /\
  (OspfNeighborTable.has_router_id rid (OspfNeighborTable.m_neighbors tbl) = false ->
   List.find (fun n => OspfNeighborTable.router_id n =? rid)
             (OspfNeighborTable.records (OspfNeighborTable.m_neighbors twice))
   = Some (OspfNeighborTable.mkNeighbor a1 m1 i1 s1 rid)) /\
  (OspfNeighborTable.has_router_id rid (OspfNeighborTable.m_neighbors tbl) = true ->
   twice = tbl) /\
  OspfNeighborTable.unique_ids (m_neighbor_table (perform c st)) /\
  (forall st', reachable st' -> OspfNeighborTable.unique_ids (m_neighbor_table st')).
Proof.
  intros U tbl once twice.
  assert (Hsame : twice = once).
  { subst twice. apply TableFacts.addNeighbors_present.
    apply TableFacts.has_after_addNeighbors. }
  assert (Uonce : OspfNeighborTable.unique_ids once)
    by now apply TableFacts.unique_addNeighbors.
  rewrite Hsame. repeat split.
  - apply TableFacts.count_id_present; [assumption|].
    apply TableFacts.has_after_addNeighbors.
  - assumption.
  - intros Habsent. subst once.
    rewrite TableFacts.addNeighbors_absent by assumption. simpl.
    rewrite TableFacts.records_app. simpl.
    rewrite find_after_absent by exact Habsent.
    simpl. now rewrite Z.eqb_refl.
  - intros Hpresent. subst once. now apply TableFacts.addNeighbors_present.
  - now apply perform_keeps_unique.
  - apply reachable_unique.
Qed.

Lemma neighbor_ids_stay_unique_witness :
  OspfNeighborTable.addNeighbors (dotted 10 1 1 9) Scenario.mask8 Scenario.lo States.INIT 2
    (OspfNeighborTable.addNeighbors (dotted 10 1 1 2) Scenario.mask24 Scenario.link1
       States.DOWN 2 (m_neighbor_table Scenario.router1))
  = m_neighbor_table Scenario.router1_knows_2 /\
  OspfNeighborTable.count_id 2 (m_neighbor_table Scenario.router1_knows_2) = 1%nat /\
  OspfNeighborTable.unique_ids
    (m_neighbor_table
       (perform (CallReceive Scenario.down_valid Scenario.from_2 Scenario.link1)
                Scenario.router1)).
Proof.
  destruct (neighbor_ids_stay_unique Scenario.router1
              (CallReceive Scenario.down_valid Scenario.from_2 Scenario.link1)
              (dotted 10 1 1 2) Scenario.mask24 Scenario.link1 States.DOWN
              (dotted 10 1 1 9) Scenario.mask8 Scenario.lo States.INIT 2)
    as [Hsame [Hcount [_ [_ [_ [Hstep _]]]]]].
  - apply NoDup_nil_2.
  - rewrite Hsame in Hcount. repeat split; assumption.
Defined.

(** ** Destinations of the emitted packets *)

(** The bootstrap on router 1: the loopback device is skipped, the link
    is set forwarding and announced once. *)
Example startDownState_router1 :
  fst (startDownState Scenario.router1) = Ok tt /\
  m_ipv4 (snd (startDownState Scenario.router1))
  = [mkIf true false [Scenario.loopback]; mkIf false true [Scenario.addr1]] /\
  m_downTarget (snd (startDownState Scenario.router1))
  = [composed Scenario.addr1 OSPF_ALL_NODE States.DOWN Scenario.router1].
Proof. repeat split; reflexivity. Qed.

Lemma appends_refl P st : appends P st st.
Proof. exists []. split; [unfold emitted; now rewrite app_nil_r|constructor]. Qed.

Lemma appends_trans P a b c : appends P a b -> appends P b c -> appends P a c.
Proof.
  intros [n1 [E1 F1]] [n2 [E2 F2]]. exists (n1 ++ n2). unfold emitted in *. split.
  - now rewrite E2, E1, app_assoc.
  - apply Forall_app. auto.
Qed.

Lemma appends_same_log P st st' :
  m_downTarget st' = m_downTarget st -> appends P st st'.
Proof.
  intros H. exists []. split; [unfold emitted; now rewrite app_nil_r|constructor].
Qed.

Lemma appends_push P c st : P c -> appends P st (push_call c st).
Proof. intros H. exists [c]. split; [reflexivity|]. repeat constructor. exact H. Qed.

(** C10. Whatever packet [Receive] handles, the calls it adds to the
    down target's log obey the destination rule: every Down-state packet
    is addressed to 224.0.0.5, every Init-state and Two-Way-state packet
    to the source address of the packet being handled. Every call that
    [startDownState] adds is a Down-state packet addressed to
    224.0.0.5. *)
Theorem destinations_of_emitted_packets st :
  (forall packet header interface,
     appends (addressed_for (Ipv4Header.GetSource header)) st
             (state_after (Receive packet header interface) st)) /\
  appends announcement st (state_after startDownState st) /\
  OSPF_ALL_NODE = 224 * 2 ^ 24 + 5.
Proof.
  split; [|split].
  - intros packet header interface.
    apply (respects_Receive (appends (addressed_for (Ipv4Header.GetSource header)))
             (appends_refl _) (appends_trans _)
             (Ipv4Header.GetSource header)
             (addressed_for (Ipv4Header.GetSource header))).
    + intros c Hs Hd. unfold addressed_for, packet_state. rewrite Hs.
      split; [auto|]. intros [H|H]; discriminate H.
    + intros c Hs Hd. unfold addressed_for, packet_state. rewrite Hs.
      split; [intros H; discriminate H|auto].
    + intros c Hs Hd. unfold addressed_for, packet_state. rewrite Hs.
      split; [intros H; discriminate H|auto].
    + intros c st0 H. now apply appends_push.
    + intros a m i s rid st0. now apply appends_same_log.
    + intros s rid st0. now apply appends_same_log.
    + reflexivity.
  - apply (respects_startDownState (appends announcement)
             (appends_refl _) (appends_trans _) announcement).
    + intros c Hs Hd. now split.
    + intros c st0 H. now apply appends_push.
    + intros ipv4 st0. now apply appends_same_log.
  - reflexivity.
Qed.

(** * Further properties of the receive path *)

Ltac unfold_handler :=
  unfold HandleDownResponse, HandleInitResponse, HandleTwoWayResponse,
    visibility_check, SendDownPacket, SendInitPacket, SendTwoWayPacket,
    compose_hello, Send, GetAddress, when, bind, gets, modify, ret, abort.

Ltac close_reaction :=
  repeat match goal with
         | H : negb _ = true |- _ => apply negb_true_iff in H
         end;
  unfold reaction, same_configuration, table_step, reply_of, composed, hello_of,
    push_call, update_table; simpl;
  split; [repeat split|];
  split;
    [ first [ left; reflexivity
            | right; left; reflexivity
            | right; right; left; reflexivity
            | right; right; right; reflexivity ]
    | first
        [ left; reflexivity
        | right; eexists; split; [reflexivity|];
          eexists _, _, _; split; [eassumption|];
          split;
            [ match goal with
              | H : scope_is_host _ = false |- _ =>
                  apply bool_decide_eq_false in H; exact H
              end |];
          split; [reflexivity|];
          first [ left; split; reflexivity
                | right; left; split; reflexivity
                | right; right; split; reflexivity ] ] ].

Lemma HandleDownResponse_reaction packet header ospfHeader interface incomingIf st :
  reaction packet header ospfHeader interface incomingIf st
    (snd (HandleDownResponse packet header ospfHeader interface incomingIf st)).
Proof.
  unfold_handler. simpl.
  repeat (case_match; simpl in *; simplify_eq); try close_reaction.
Qed.

Lemma HandleInitResponse_reaction packet header ospfHeader interface incomingIf st :
  reaction packet header ospfHeader interface incomingIf st
    (snd (HandleInitResponse packet header ospfHeader interface incomingIf st)).
Proof.
  unfold_handler. simpl.
  repeat (case_match; simpl in *; simplify_eq); try close_reaction.
Qed.

Lemma HandleTwoWayResponse_reaction packet header ospfHeader interface incomingIf st :
  reaction packet header ospfHeader interface incomingIf st
    (snd (HandleTwoWayResponse packet header ospfHeader interface incomingIf st)).
Proof.
  unfold_handler. simpl.
  repeat (case_match; simpl in *; simplify_eq); try close_reaction.
Qed.

Lemma reaction_refl packet header ospfHeader interface incomingIf st :
  reaction packet header ospfHeader interface incomingIf st st.
Proof.
  unfold reaction, same_configuration, table_step.
  split; [repeat split|]. split; left; reflexivity.
Qed.

Lemma Receive_reaction packet header interface incomingIf st :
  packetInfoTag packet = Some incomingIf ->
  reaction packet header (ospfHeaderOf packet) interface incomingIf st
    (snd (Receive packet header interface st)).
Proof.
  intros Ht.
  destruct (decide (OspfHeader.GetState (ospfHeaderOf packet) = States.DOWN)) as [H0|H0];
    [|destruct (decide (OspfHeader.GetState (ospfHeaderOf packet) = States.INIT)) as [H2|H2];
      [|destruct (decide (OspfHeader.GetState (ospfHeaderOf packet) = States.TWO_WAY)) as [H3|H3]]].
  - rewrite (Receive_down _ _ _ _ _ Ht H0), finish_state.
    apply HandleDownResponse_reaction.
  - rewrite (Receive_init _ _ _ _ _ Ht H2), finish_state.
    apply HandleInitResponse_reaction.
  - rewrite (Receive_two_way _ _ _ _ _ Ht H3), finish_state.
    apply HandleTwoWayResponse_reaction.
  - rewrite (Receive_other _ _ _ _ _ Ht H0 H2 H3). apply reaction_refl.
Qed.

Lemma Receive_untagged_state packet header interface st :
  packetInfoTag packet = None -> snd (Receive packet header interface st) = st.
Proof. intros H. unfold Receive. now rewrite H. Qed.

(** X1. A tagged packet whose header asserts a state other than Down,
    Init and Two-Way (Attempt, ExStart and later, or no state of the
    enumeration at all) is accepted with [RX_OK] and has no effect. *)
Theorem Receive_ignores_other_states packet header interface incomingIf st :
  packetInfoTag packet = Some incomingIf ->
  OspfHeader.GetState (ospfHeaderOf packet) <> States.DOWN ->
  OspfHeader.GetState (ospfHeaderOf packet) <> States.INIT ->
  OspfHeader.GetState (ospfHeaderOf packet) <> States.TWO_WAY ->
  Receive packet header interface st = (Ok RX_OK, st).
Proof.
  intros Ht H0 H2 H3. unfold Receive. rewrite Ht.
  unfold bind at 1. unfold ret at 1.
  rewrite (proj2 (Z.eqb_neq _ _) H0), (proj2 (Z.eqb_neq _ _) H2),
    (proj2 (Z.eqb_neq _ _) H3).
  reflexivity.
Qed.

Lemma Receive_ignores_other_states_witness :
  Receive ScenarioMore.exstart_seen Scenario.from_2_unicast Scenario.link1
          Scenario.router1_knows_2
  = (Ok RX_OK, Scenario.router1_knows_2).
Proof.
  apply (Receive_ignores_other_states _ _ _ 0%nat);
    [reflexivity|vm_compute; discriminate..].
Defined.

(** X2. A Down-state packet of the local area whose mask equals the mask
    of the receiving interface's address is accepted whatever the table
    holds: [addNeighbors] is called with the packet's source address,
    the advertised mask, the receiving interface, state Down and the
    sender's router id, and an Init-state packet built from the table
    after that call goes to the packet's source address, unless the
    receiving address is host-scoped. *)
Theorem down_accepted packet header interface incomingIf address st :
  packetInfoTag packet = Some incomingIf ->
  OspfHeader.GetState (ospfHeaderOf packet) = States.DOWN ->
  OspfHello.getAreaId (helloHeaderOf packet) = m_areaId st ->
  Ipv4Interface.GetAddress interface incomingIf = Some address ->
  OspfHeader.GetMask (ospfHeaderOf packet) = Ipv4InterfaceAddress.GetMask address ->
  let run := Receive packet header interface st in
  let add :=
    OspfNeighborTable.addNeighbors
      (Ipv4Header.GetSource header) (OspfHeader.GetMask (ospfHeaderOf packet))
      interface States.DOWN (OspfHello.getRouterId (helloHeaderOf packet)) in
  fst run = Ok RX_OK /\
  m_neighbor_table (snd run) = add (m_neighbor_table st) /\
  sends_unless_host address
    (composed address (Ipv4Header.GetSource header) States.INIT (update_table add st))
    st (snd run).
Proof.
  intros Ht Hs Harea Ha Hmask run add. subst run add.
  rewrite (Receive_down _ _ _ _ _ Ht Hs).
  rewrite (HandleDownResponse_accept _ _ _ _ _ _ _ Harea Ha Hmask).
  rewrite finish_ok, Hs. simpl fst. simpl snd. rewrite after_send_table.
  split; [reflexivity|]. split; [reflexivity|].
  exact (after_send_sends address (Ipv4Header.GetSource header) States.INIT _).
Qed.

Lemma down_accepted_witness :
  fst (Receive Scenario.down_valid Scenario.from_2 Scenario.link1
               Scenario.router1_knows_2) = Ok RX_OK /\
  m_neighbor_table
    (snd (Receive Scenario.down_valid Scenario.from_2 Scenario.link1
                  Scenario.router1_knows_2))
  = m_neighbor_table Scenario.router1_knows_2 /\
  m_downTarget
    (snd (Receive Scenario.down_valid Scenario.from_2 Scenario.link1
                  Scenario.router1_knows_2))
  = [composed Scenario.addr1 (dotted 10 1 1 2) States.INIT Scenario.router1_knows_2].
Proof.
  destruct (down_accepted Scenario.down_valid Scenario.from_2 Scenario.link1
              0%nat Scenario.addr1 Scenario.router1_knows_2)
    as [Hok [Htable [Hsent _]]]; try reflexivity.
  split; [exact Hok|split; [exact Htable|]].
  apply Hsent. vm_compute. discriminate.
Defined.

(** X3. An Init-state packet that passes the mutual-visibility proof,
    from a sender whose router id is not in the local table, makes the
    handler call [addNeighbors] with the packet's source address, the
    advertised mask, the receiving interface, the state of the header
    (Init) and the sender's router id, and then send a Two-Way packet
    built from the new table to the packet's source address, unless the
    receiving address is host-scoped. *)
Theorem init_from_unknown_sender packet header interface incomingIf address st :
  packetInfoTag packet = Some incomingIf ->
  OspfHeader.GetState (ospfHeaderOf packet) = States.INIT ->
  visible st (helloHeaderOf packet) = true ->
  known st (helloHeaderOf packet) = false ->
  Ipv4Interface.GetAddress interface incomingIf = Some address ->
  let run := Receive packet header interface st in
  let add :=
    OspfNeighborTable.addNeighbors
      (Ipv4Header.GetSource header) (OspfHeader.GetMask (ospfHeaderOf packet))
      interface States.INIT (OspfHello.getRouterId (helloHeaderOf packet)) in
  fst run = Ok RX_OK /\
  m_neighbor_table (snd run) = add (m_neighbor_table st) /\
  sends_unless_host address
    (composed address (Ipv4Header.GetSource header) States.TWO_WAY (update_table add st))
    st (snd run).
Proof.
  intros Ht Hs Hv Hk Ha run add. subst run add.
  rewrite (Receive_init _ _ _ _ _ Ht Hs).
  rewrite (HandleInitResponse_unknown _ _ _ _ _ _ _ Hv Hk Ha).
  rewrite finish_ok, Hs. simpl fst. simpl snd. rewrite after_send_table.
  split; [reflexivity|]. split; [reflexivity|].
  exact (after_send_sends address (Ipv4Header.GetSource header) States.TWO_WAY _).
Qed.

Lemma init_from_unknown_sender_witness :
  fst (Receive Scenario.init_seen Scenario.from_2_unicast Scenario.link1
               Scenario.router1) = Ok RX_OK /\
  OspfNeighborTable.m_neighbors
    (m_neighbor_table
       (snd (Receive Scenario.init_seen Scenario.from_2_unicast Scenario.link1
                     Scenario.router1)))
  = [[OspfNeighborTable.mkNeighbor (dotted 10 1 1 2) Scenario.mask24 Scenario.link1
        States.INIT 2]] /\
  length
    (m_downTarget
       (snd (Receive Scenario.init_seen Scenario.from_2_unicast Scenario.link1
                     Scenario.router1)))
  = 1%nat.
Proof.
  destruct (init_from_unknown_sender Scenario.init_seen Scenario.from_2_unicast
              Scenario.link1 0%nat Scenario.addr1 Scenario.router1)
    as [Hok [Htable [Hsent _]]]; try reflexivity.
  split; [exact Hok|split].
  - rewrite Htable. reflexivity.
  - rewrite Hsent by (vm_compute; discriminate). reflexivity.
Defined.

(** X4. A Two-Way-state packet that passes the mutual-visibility proof
    but comes from a sender whose router id is not in the local table
    restarts discovery: the table is left as it is and a Down-state
    packet goes to 224.0.0.5, unless the receiving address is
    host-scoped. *)
Theorem two_way_from_unknown_sender packet header interface incomingIf address st :
  packetInfoTag packet = Some incomingIf ->
  OspfHeader.GetState (ospfHeaderOf packet) = States.TWO_WAY ->
  visible st (helloHeaderOf packet) = true ->
  known st (helloHeaderOf packet) = false ->
  Ipv4Interface.GetAddress interface incomingIf = Some address ->
  let run := Receive packet header interface st in
  fst run = Ok RX_OK /\
  m_neighbor_table (snd run) = m_neighbor_table st /\
  sends_unless_host address
    (composed address OSPF_ALL_NODE States.DOWN st) st (snd run).
Proof.
  intros Ht Hs Hv Hk Ha run. subst run.
  rewrite (Receive_two_way _ _ _ _ _ Ht Hs).
  rewrite (HandleTwoWayResponse_unknown _ _ _ _ _ _ _ Hv Hk Ha).
  rewrite finish_ok. simpl fst. simpl snd. rewrite after_send_table.
  split; [reflexivity|]. split; [reflexivity|]. apply after_send_sends.
Qed.

Lemma two_way_from_unknown_sender_witness :
  fst (Receive Scenario.two_way_seen Scenario.from_2_unicast Scenario.link1
               Scenario.router1) = Ok RX_OK /\
  m_neighbor_table
    (snd (Receive Scenario.two_way_seen Scenario.from_2_unicast Scenario.link1
                  Scenario.router1))
  = m_neighbor_table Scenario.router1 /\
  m_downTarget
    (snd (Receive Scenario.two_way_seen Scenario.from_2_unicast Scenario.link1
                  Scenario.router1))
  = [composed Scenario.addr1 OSPF_ALL_NODE States.DOWN Scenario.router1].
Proof.
  destruct (two_way_from_unknown_sender Scenario.two_way_seen Scenario.from_2_unicast
              Scenario.link1 0%nat Scenario.addr1 Scenario.router1)
    as [Hok [Htable [Hsent _]]]; try reflexivity.
  split; [exact Hok|split; [exact Htable|]].
  apply Hsent. vm_compute. discriminate.
Defined.

(** X5. An Init-state or Two-Way-state packet whose snapshot does not
    list the local router id restarts discovery, whatever its area and
    whatever the local table holds: the table is left as it is and a
    Down-state packet goes to 224.0.0.5, unless the receiving address is
    host-scoped. *)
Theorem unlisted_router_restarts packet header interface incomingIf address st :
  packetInfoTag packet = Some incomingIf ->
  OspfHeader.GetState (ospfHeaderOf packet) = States.INIT \/
  OspfHeader.GetState (ospfHeaderOf packet) = States.TWO_WAY ->
  (forall row n,
     In row (OspfHello.getNeighbors (helloHeaderOf packet)) -> In n row ->
     OspfNeighborTable.router_id n <> m_routerId st) ->
  Ipv4Interface.GetAddress interface incomingIf = Some address ->
  let run := Receive packet header interface st in
  fst run = Ok RX_OK /\
  m_neighbor_table (snd run) = m_neighbor_table st /\
  sends_unless_host address
    (composed address OSPF_ALL_NODE States.DOWN st) st (snd run).
Proof.
  intros Ht Hs Hun Ha run. subst run.
  assert (Hv : visible st (helloHeaderOf packet) = false).
  { unfold visible.
    destruct (OspfNeighborTable.has_router_id _ _) eqn:E; [|reflexivity].
    exfalso. unfold OspfNeighborTable.has_router_id in E.
    apply existsb_exists in E. destruct E as [n [Hin Hid]].
    unfold OspfNeighborTable.records in Hin. apply in_concat in Hin.
    destruct Hin as [row [Hrow Hn]]. apply Z.eqb_eq in Hid.
    exact (Hun row n Hrow Hn Hid). }
  destruct Hs as [Hs|Hs].
  - rewrite (Receive_init _ _ _ _ _ Ht Hs).
    rewrite (HandleInitResponse_not_visible _ _ _ _ _ _ _ Hv Ha).
    rewrite finish_ok. simpl fst. simpl snd. rewrite after_send_table.
    split; [reflexivity|]. split; [reflexivity|]. apply after_send_sends.
  - rewrite (Receive_two_way _ _ _ _ _ Ht Hs).
    rewrite (HandleTwoWayResponse_not_visible _ _ _ _ _ _ _ Hv Ha).
    rewrite finish_ok. simpl fst. simpl snd. rewrite after_send_table.
    split; [reflexivity|]. split; [reflexivity|]. apply after_send_sends.
Qed.

Lemma unlisted_router_restarts_witness :
  fst (Receive ScenarioMore.init_listing_2 Scenario.from_2_unicast Scenario.link1
               Scenario.router1_knows_2) = Ok RX_OK /\
  m_neighbor_table
    (snd (Receive ScenarioMore.init_listing_2 Scenario.from_2_unicast Scenario.link1
                  Scenario.router1_knows_2))
  = m_neighbor_table Scenario.router1_knows_2 /\
  m_downTarget
    (snd (Receive ScenarioMore.init_listing_2 Scenario.from_2_unicast Scenario.link1
                  Scenario.router1_knows_2))
  = [composed Scenario.addr1 OSPF_ALL_NODE States.DOWN Scenario.router1_knows_2].
Proof.
  destruct (unlisted_router_restarts ScenarioMore.init_listing_2 Scenario.from_2_unicast
              Scenario.link1 0%nat Scenario.addr1 Scenario.router1_knows_2)
    as [Hok [Htable [Hsent _]]].
  - reflexivity.
  - left. reflexivity.
  - intros row n [<-|[]] [<-|[]]. vm_compute. discriminate.
  - reflexivity.
  - split; [exact Hok|split; [exact Htable|]].
    apply Hsent. vm_compute. discriminate.
Defined.

(** X6. Handling one packet adds at most one call to the log of the down
    target and leaves the earlier calls in place, whether the run
    completes or aborts. *)
Theorem Receive_emits_at_most_one packet header interface st :
  exists new,
    m_downTarget (snd (Receive packet header interface st)) = m_downTarget st ++ new /\
    (length new <= 1)%nat.
Proof.
  destruct (packetInfoTag packet) as [incomingIf|] eqn:Ht.
  - destruct (Receive_reaction packet header interface incomingIf st Ht)
      as [_ [_ [Hlog|[c [Hlog _]]]]].
    + exists []. rewrite Hlog, app_nil_r. split; [reflexivity|simpl; lia].
    + exists [c]. split; [exact Hlog|simpl; lia].
  - rewrite (Receive_untagged_state _ _ _ _ Ht).
    exists []. rewrite app_nil_r. split; [reflexivity|simpl; lia].
Qed.

(** X7. A call that handling a packet adds to the log is a discovery
    packet of this protocol through and through: protocol number 89,
    packet type Hello, checksum initialised over its own source and
    destination; its source and mask are those of the address of the
    receiving interface at the tagged index, which is not host-scoped;
    and it carries the neighbour snapshot of the table as the handler
    left it together with the local router id and area. *)
Theorem emitted_call_is_well_formed packet header interface st c :
  m_downTarget (snd (Receive packet header interface st)) = m_downTarget st ++ [c] ->
  let st' := snd (Receive packet header interface st) in
  call_protocol c = PROTOCOL_NUMBER /\
  OspfHeader.GetPacketType (ospfHeaderOf (call_packet c)) = PacketType.HELLO /\
  OspfHeader.checksum_init (ospfHeaderOf (call_packet c))
  = Some (call_saddr c, call_daddr c, PROTOCOL_NUMBER) /\
  helloHeaderOf (call_packet c)
  = OspfHello.mk (OspfNeighborTable.getCurrentNeighbors (m_neighbor_table st'))
                 (m_routerId st) (m_areaId st) /\
  exists incomingIf address,
    packetInfoTag packet = Some incomingIf /\
    Ipv4Interface.GetAddress interface incomingIf = Some address /\
    Ipv4InterfaceAddress.GetScope address <> Ipv4InterfaceAddress.HOST /\
    call_saddr c = Ipv4InterfaceAddress.GetLocal address /\
    OspfHeader.GetMask (ospfHeaderOf (call_packet c))
    = Ipv4InterfaceAddress.GetMask address.
Proof.
  intros Hlog st'. subst st'.
  destruct (packetInfoTag packet) as [incomingIf|] eqn:Ht.
  - destruct (Receive_reaction packet header interface incomingIf st Ht)
      as [[_ [_ [Hrid Haid]]] [_ [Hsame|[c' [Hlog' Hreply]]]]].
    + rewrite Hsame in Hlog. symmetry in Hlog.
      rewrite <- (app_nil_r (m_downTarget st)) in Hlog at 2.
      apply app_inv_head in Hlog. discriminate.
    + rewrite Hlog' in Hlog. apply app_inv_head in Hlog.
      injection Hlog as ->.
      destruct Hreply as [address [daddr [s [Ha [Hscope [-> _]]]]]].
      unfold composed, hello_of. simpl. rewrite Hrid, Haid.
      repeat split. exists incomingIf, address. repeat split; assumption.
  - rewrite (Receive_untagged_state _ _ _ _ Ht) in Hlog. symmetry in Hlog.
    rewrite <- (app_nil_r (m_downTarget st)) in Hlog at 2.
    apply app_inv_head in Hlog. discriminate.
Qed.

Lemma emitted_call_is_well_formed_witness :
  call_protocol (composed Scenario.addr1 (dotted 10 1 1 2) States.INIT
                          Scenario.router1_knows_2) = 89 /\
  call_saddr (composed Scenario.addr1 (dotted 10 1 1 2) States.INIT
                       Scenario.router1_knows_2) = dotted 10 1 1 1.
Proof.
  destruct (emitted_call_is_well_formed Scenario.down_valid Scenario.from_2
              Scenario.link1 Scenario.router1
              (composed Scenario.addr1 (dotted 10 1 1 2) States.INIT
                        Scenario.router1_knows_2))
    as [Hproto [_ [_ [_ [i [a [Ht [Ha [_ [Hsrc _]]]]]]]]]].
  - reflexivity.
  - split; [exact Hproto|].
    injection Ht as <-. injection Ha as <-. exact Hsrc.
Defined.


Lemma handler_completes_with_address :
  forall packet header ospfHeader interface incomingIf address st,
    Ipv4Interface.GetAddress interface incomingIf = Some address ->
    fst (HandleDownResponse packet header ospfHeader interface incomingIf st) = Ok tt /\
    fst (HandleInitResponse packet header ospfHeader interface incomingIf st) = Ok tt /\
    fst (HandleTwoWayResponse packet header ospfHeader interface incomingIf st) = Ok tt.
Proof.
  intros packet header ospfHeader interface incomingIf address st Ha.
  unfold_handler. simpl. rewrite Ha.
  repeat split; repeat (case_match; simpl in *; simplify_eq); reflexivity.
Qed.

(** X9. The two ways [Receive] can stop early are the only ones: when
    the packet carries its tag and the receiving interface has an
    address at the tagged index, the run completes with [RX_OK],
    whatever the packet says and whatever the table holds. *)
Theorem Receive_completes packet header interface incomingIf address st :
  packetInfoTag packet = Some incomingIf ->
  Ipv4Interface.GetAddress interface incomingIf = Some address ->
  fst (Receive packet header interface st) = Ok RX_OK.
Proof.
  intros Ht Ha.
  destruct (handler_completes_with_address packet header (ospfHeaderOf packet)
              interface incomingIf address st Ha) as [Hd [Hi Hw]].
  destruct (decide (OspfHeader.GetState (ospfHeaderOf packet) = States.DOWN)) as [H0|H0];
    [|destruct (decide (OspfHeader.GetState (ospfHeaderOf packet) = States.INIT)) as [H2|H2];
      [|destruct (decide (OspfHeader.GetState (ospfHeaderOf packet) = States.TWO_WAY)) as [H3|H3]]].
  - rewrite (Receive_down _ _ _ _ _ Ht H0).
    destruct (HandleDownResponse _ _ _ _ _ st) as [[[]|e] st']; [reflexivity|discriminate].
  - rewrite (Receive_init _ _ _ _ _ Ht H2).
    destruct (HandleInitResponse _ _ _ _ _ st) as [[[]|e] st']; [reflexivity|discriminate].
  - rewrite (Receive_two_way _ _ _ _ _ Ht H3).
    destruct (HandleTwoWayResponse _ _ _ _ _ st) as [[[]|e] st']; [reflexivity|discriminate].
  - now rewrite (Receive_other _ _ _ _ _ Ht H0 H2 H3).
Qed.

Lemma Receive_completes_witness :
  fst (Receive Scenario.two_way_seen Scenario.from_2_unicast Scenario.link1
               Scenario.router1_settled) = Ok RX_OK.
Proof.
  apply (Receive_completes _ _ _ 0%nat Scenario.addr1); reflexivity.
Defined.

(** * Further properties of the bootstrap *)

Lemma startDownState_passes :
  startDownState
  = (let* neighbor_table :=
       gets (fun st => OspfNeighborTable.getCurrentNeighbors (m_neighbor_table st)) in
     let* nInterfaces := gets (fun st => length (m_ipv4 st)) in
     for_each (seq 0 nInterfaces) (interface_pass neighbor_table)).
Proof. reflexivity. Qed.

Lemma ipv4_interface_run i ifc st :
  m_ipv4 st !! i = Some ifc -> ipv4_interface i st = (Ok ifc, st).
Proof. intros H. unfold ipv4_interface, bind, gets. now rewrite H. Qed.

Lemma ipv4_GetAddress_run i j ifc address st :
  m_ipv4 st !! i = Some ifc -> addresses ifc !! j = Some address ->
  ipv4_GetAddress i j st = (Ok address, st).
Proof.
  intros Hi Hj. unfold ipv4_GetAddress, bind.
  rewrite (ipv4_interface_run _ _ _ Hi). now rewrite Hj.
Qed.

(** One address with an empty snapshot: nothing can veto the
    announcement. *)
Lemma address_pass_on_empty_table i active j ifc address st :
  m_ipv4 st !! i = Some ifc -> addresses ifc !! j = Some address ->
  address_pass [] i active j st
  = (Ok tt,
     if negb (scope_is_host address) && active
     then after_send address OSPF_ALL_NODE States.DOWN st else st).
Proof.
  intros Hi Hj. unfold address_pass, bind at 1.
  rewrite (ipv4_GetAddress_run _ _ _ _ _ Hi Hj).
  destruct (negb (scope_is_host address) && active); simpl; [|reflexivity].
  unfold bind, ret. simpl. apply SendDownPacket_run.
Qed.

(** The pass over the addresses of one interface, with an empty
    snapshot: the addresses still to do are announced in order when the
    interface is active. *)
Lemma address_passes_on_empty_table i active ifc ipv4 excl tbl rid aid :
  ipv4 !! i = Some ifc ->
  forall todo done log,
    addresses ifc = done ++ todo ->
    for_each (seq (length done) (length todo)) (address_pass [] i active)
      (mkProto ipv4 excl tbl rid aid log)
    = (Ok tt,
       mkProto ipv4 excl tbl rid aid
         (log ++ if active
                 then announcements_from (mkProto ipv4 excl tbl rid aid log) todo
                 else [])).
Proof.
  intros Hi. induction todo as [|a todo IH]; intros done log Hsplit.
  - simpl. destruct active; simpl; now rewrite app_nil_r.
  - change (seq (length done) (length (a :: todo)))
      with (length done :: seq (S (length done)) (length todo)).
    assert (Hsplit' : addresses ifc = (done ++ [a]) ++ todo)
      by now rewrite <- app_assoc.
    assert (Hlen : S (length done) = length (done ++ [a]))
      by (rewrite length_app; simpl; lia).
    assert (Hj : addresses ifc !! length done = Some a)
      by (rewrite Hsplit; apply list_lookup_middle; reflexivity).
    simpl for_each. unfold bind at 1.
    rewrite (address_pass_on_empty_table i active (length done) ifc a
               (mkProto ipv4 excl tbl rid aid log) Hi Hj).
    rewrite Hlen. unfold after_send.
    destruct (scope_is_host a) eqn:Hhost, active; cbn [negb andb];
      try (rewrite (IH (done ++ [a]) log Hsplit'); unfold announcements_from;
           cbn [List.filter map]; rewrite ?Hhost; reflexivity).
    unfold push_call. cbn [m_ipv4 m_interfaceExclusions m_neighbor_table
                           m_routerId m_areaId m_downTarget].
    rewrite (IH (done ++ [a]) _ Hsplit'). unfold announcements_from.
    cbn [List.filter map]. rewrite Hhost. cbn [negb map].
    rewrite <- app_assoc. reflexivity.
Qed.

Lemma bind_ok {A B} (c : M A) (k : A -> M B) st a st' :
  c st = (Ok a, st') -> bind c k st = k a st'.
Proof. intros H. unfold bind. now rewrite H. Qed.

Lemma SetForwarding_run done ifc todo excl tbl rid aid log val :
  SetForwarding (length done) val (mkProto (done ++ ifc :: todo) excl tbl rid aid log)
  = (Ok tt,
     mkProto (done ++ mkIf (netDeviceIsLoopback ifc) val (addresses ifc) :: todo)
             excl tbl rid aid log).
Proof.
  unfold SetForwarding.
  rewrite (bind_ok _ _ _ ifc _)
    by (apply ipv4_interface_run; apply list_lookup_middle; reflexivity).
  unfold modify. cbn [m_ipv4 m_interfaceExclusions m_neighbor_table m_routerId
                      m_areaId m_downTarget].
  rewrite insert_app_r_alt by lia. rewrite Nat.sub_diag. reflexivity.
Qed.

Lemma GetNAddresses_run i ifc st :
  m_ipv4 st !! i = Some ifc -> GetNAddresses i st = (Ok (length (addresses ifc)), st).
Proof.
  intros Hi. unfold GetNAddresses.
  now rewrite (bind_ok _ _ _ ifc _) by (now apply ipv4_interface_run).
Qed.

(** One interface with an empty snapshot: forwarding is turned on and
    the addresses are announced exactly when the interface takes part. *)
Lemma interface_pass_on_empty_table done ifc todo excl tbl rid aid log :
  interface_pass [] (length done) (mkProto (done ++ ifc :: todo) excl tbl rid aid log)
  = (Ok tt,
     mkProto
       (done ++ (if participates excl (length done) ifc
                 then mkIf (netDeviceIsLoopback ifc) true (addresses ifc) else ifc)
             :: todo)
       excl tbl rid aid
       (log ++ if participates excl (length done) ifc
               then announcements_from
                      (mkProto (done ++ ifc :: todo) excl tbl rid aid log)
                      (addresses ifc)
               else [])).
Proof.
  assert (Hi : (done ++ ifc :: todo) !! length done = Some ifc)
    by (apply list_lookup_middle; reflexivity).
  unfold interface_pass.
  rewrite (bind_ok _ _ _ ifc _) by (now apply ipv4_interface_run).
  unfold participates.
  destruct (netDeviceIsLoopback ifc) eqn:Hloop; cbn [negb andb].
  - unfold ret. now rewrite app_nil_r.
  - rewrite (bind_ok _ _ _ excl _) by reflexivity.
    destruct (bool_decide (length done ∉ excl)) eqn:Hexcl.
    + rewrite (bind_ok _ _ _ true
                 (mkProto (done ++ mkIf false true (addresses ifc) :: todo)
                          excl tbl rid aid log)).
      2: { rewrite (bind_ok _ _ _ tt _) by apply SetForwarding_run.
           rewrite Hloop. reflexivity. }
      assert (Hi' :
        (done ++ mkIf false true (addresses ifc) :: todo) !! length done
        = Some (mkIf false true (addresses ifc)))
        by (apply list_lookup_middle; reflexivity).
      rewrite (bind_ok _ _ _ (length (addresses ifc)) _)
        by (now apply (GetNAddresses_run _ (mkIf false true (addresses ifc)))).
      exact (address_passes_on_empty_table (length done) true
               (mkIf false true (addresses ifc)) _ excl tbl rid aid Hi'
               (addresses ifc) [] log eq_refl).
    + rewrite (bind_ok _ _ _ false _) by reflexivity.
      rewrite (bind_ok _ _ _ (length (addresses ifc)) _)
        by (now apply (GetNAddresses_run _ ifc)).
      exact (address_passes_on_empty_table (length done) false
               ifc _ excl tbl rid aid Hi (addresses ifc) [] log eq_refl).
Qed.

(** The announcements depend on the state only through the exclusion
    set and the discovery message composed in it. *)
Lemma announcements_frame st1 st2 first ifcs :
  m_interfaceExclusions st1 = m_interfaceExclusions st2 ->
  hello_of st1 = hello_of st2 ->
  announcements st1 first ifcs = announcements st2 first ifcs.
Proof.
  intros Hexcl Hhello. revert first.
  induction ifcs as [|ifc ifcs IH]; intros first; [reflexivity|].
  cbn [announcements]. rewrite IH, Hexcl.
  unfold announcements_from, composed. now rewrite Hhello.
Qed.

Lemma interface_passes_on_empty_table excl tbl rid aid :
  forall todo done log,
    for_each (seq (length done) (length todo)) (interface_pass [])
      (mkProto (done ++ todo) excl tbl rid aid log)
    = (Ok tt,
       mkProto (done ++ forwarding_on excl (length done) todo) excl tbl rid aid
         (log ++ announcements (mkProto (done ++ todo) excl tbl rid aid log)
                               (length done) todo)).
Proof.
  induction todo as [|ifc todo IH]; intros done log.
  - simpl. rewrite !app_nil_r. reflexivity.
  - change (seq (length done) (length (ifc :: todo)))
      with (length done :: seq (S (length done)) (length todo)).
    cbn [for_each]. unfold bind at 1.
    rewrite interface_pass_on_empty_table.
    cbn [forwarding_on announcements m_interfaceExclusions].
    set (ifc' := if participates excl (length done) ifc
                 then mkIf (netDeviceIsLoopback ifc) true (addresses ifc) else ifc).
    assert (Hlen : S (length done) = length (done ++ [ifc']))
      by (rewrite length_app; simpl; lia).
    rewrite (cons_middle ifc' done todo), app_assoc.
    rewrite Hlen, IH, <- Hlen.
    f_equal. f_equal.
    + now rewrite <- app_assoc.
    + rewrite <- app_assoc. f_equal. f_equal.
      apply announcements_frame; reflexivity.
Qed.

Lemma In_announcements st c :
  forall ifcs first,
    In c (announcements st first ifcs) <->
    (exists k ifc address,
       ifcs !! k = Some ifc /\
       In address (addresses ifc) /\
       netDeviceIsLoopback ifc = false /\
       ((first + k)%nat ∉ m_interfaceExclusions st) /\
       Ipv4InterfaceAddress.GetScope address <> Ipv4InterfaceAddress.HOST /\
       c = composed address OSPF_ALL_NODE States.DOWN st).
Proof.
  assert (Hfrom : forall ifc,
    In c (announcements_from st (addresses ifc)) <->
    (exists address,
       In address (addresses ifc) /\
       Ipv4InterfaceAddress.GetScope address <> Ipv4InterfaceAddress.HOST /\
       c = composed address OSPF_ALL_NODE States.DOWN st)).
  { intros ifc. unfold announcements_from. rewrite in_map_iff. split.
    - intros [a [Hc Ha]]. apply filter_In in Ha. destruct Ha as [Ha Hs].
      exists a. apply negb_true_iff, bool_decide_eq_false in Hs. auto.
    - intros [a [Ha [Hs Hc]]]. exists a. split; [auto|].
      apply filter_In. split; [exact Ha|].
      now apply negb_true_iff, bool_decide_eq_false. }
  induction ifcs as [|ifc ifcs IH]; intros first.
  - simpl. split; [tauto|]. intros [k [ifc [a [Hk _]]]]. discriminate.
  - cbn [announcements]. rewrite in_app_iff, IH. split.
    + intros [Hhere|[k [ifc' [a [Hk [Ha [Hl [He [Hs Hc]]]]]]]]].
      * destruct (participates _ first ifc) eqn:Hp; [|destruct Hhere].
        apply Hfrom in Hhere. destruct Hhere as [a [Ha [Hs Hc]]].
        unfold participates in Hp. apply andb_true_iff in Hp.
        destruct Hp as [Hl He]. apply negb_true_iff in Hl.
        apply bool_decide_eq_true in He.
        exists 0%nat, ifc, a. rewrite Nat.add_0_r. auto 10.
      * exists (S k), ifc', a. rewrite Nat.add_succ_r. auto 10.
    + intros [[|k] [ifc' [a [Hk [Ha [Hl [He [Hs Hc]]]]]]]].
      * left. simpl in Hk. injection Hk as <-. rewrite Nat.add_0_r in He.
        unfold participates. rewrite Hl. simpl.
        rewrite bool_decide_eq_true_2 by exact He.
        apply Hfrom. eauto.
      * right. exists k, ifc', a. rewrite Nat.add_succ_r in He. auto 10.
Qed.

Lemma startDownState_empty_run st :
  OspfNeighborTable.m_neighbors (m_neighbor_table st) = [] ->
  startDownState st
  = (Ok tt,
     mkProto (forwarding_on (m_interfaceExclusions st) 0 (m_ipv4 st))
             (m_interfaceExclusions st) (m_neighbor_table st)
             (m_routerId st) (m_areaId st)
             (m_downTarget st ++ announcements st 0 (m_ipv4 st))).
Proof.
  intros Hempty. rewrite startDownState_passes.
  destruct st as [ipv4 excl tbl rid aid log]. simpl in Hempty.
  unfold bind at 1. unfold gets at 1.
  unfold OspfNeighborTable.getCurrentNeighbors. cbn [m_neighbor_table].
  rewrite Hempty. unfold bind at 1. unfold gets at 1. cbn [m_ipv4].
  exact (interface_passes_on_empty_table excl tbl rid aid ipv4 [] log).
Qed.

(** X10. The bootstrap on an empty neighbour table always completes. It
    turns forwarding on for every interface whose device is not a
    loopback device and whose index is not excluded, leaves the other
    interfaces as they are, and appends to the log exactly one Down-state
    packet to 224.0.0.5 for every address of such an interface that is
    not host-scoped, in the order of interfaces and addresses. Table,
    identifiers and exclusions stay as they are. *)
Theorem startDownState_on_empty_table st :
  OspfNeighborTable.m_neighbors (m_neighbor_table st) = [] ->
  startDownState st
  = (Ok tt,
     mkProto (forwarding_on (m_interfaceExclusions st) 0 (m_ipv4 st))
             (m_interfaceExclusions st) (m_neighbor_table st)
             (m_routerId st) (m_areaId st)
             (m_downTarget st ++ announcements st 0 (m_ipv4 st))).
Proof. exact (startDownState_empty_run st). Qed.

Lemma startDownState_on_empty_table_witness :
  startDownState Scenario.router1
  = (Ok tt,
     mkProto [mkIf true false [Scenario.loopback]; mkIf false true [Scenario.addr1]]
             ∅ OspfNeighborTable.create 1 0
             [composed Scenario.addr1 OSPF_ALL_NODE States.DOWN Scenario.router1]).
Proof.
  rewrite (startDownState_on_empty_table Scenario.router1); reflexivity.
Defined.

(** X11. On an empty neighbour table the bootstrap announces from an
    address exactly when the address is not host-scoped and sits on an
    interface that is neither a loopback device nor excluded: the log
    afterwards holds the earlier calls and the Down-state packets to
    224.0.0.5 composed from these addresses, and nothing else. *)
Theorem startDownState_announces_eligible_addresses st c :
  OspfNeighborTable.m_neighbors (m_neighbor_table st) = [] ->
  (In c (m_downTarget (snd (startDownState st))) <->
   (In c (m_downTarget st) \/
    exists i ifc address,
      m_ipv4 st !! i = Some ifc /\
      In address (addresses ifc) /\
      netDeviceIsLoopback ifc = false /\
      (i ∉ m_interfaceExclusions st) /\
      Ipv4InterfaceAddress.GetScope address <> Ipv4InterfaceAddress.HOST /\
      c = composed address OSPF_ALL_NODE States.DOWN st)).
Proof.
  intros Hempty. rewrite (startDownState_empty_run st Hempty).
  cbn [snd m_downTarget]. rewrite in_app_iff, In_announcements.
  reflexivity.
Qed.

Lemma startDownState_announces_eligible_addresses_witness :
  In (composed Scenario.addr1 OSPF_ALL_NODE States.DOWN Scenario.router1)
     (m_downTarget (snd (startDownState Scenario.router1))).
Proof.
  apply (startDownState_announces_eligible_addresses Scenario.router1);
    [reflexivity|].
  right. exists 1%nat, (mkIf false false [Scenario.addr1]), Scenario.addr1.
  repeat split; [left; reflexivity|set_solver|vm_compute; discriminate].
Defined.

Lemma forwarding_on_again excl :
  forall ifcs first,
    forwarding_on excl first (forwarding_on excl first ifcs)
    = forwarding_on excl first ifcs.
Proof.
  induction ifcs as [|ifc ifcs IH]; intros first; [reflexivity|].
  cbn [forwarding_on]. rewrite IH. f_equal.
  destruct (participates excl first ifc) eqn:Hp; [|now rewrite Hp].
  unfold participates in *. cbn [netDeviceIsLoopback]. rewrite Hp.
  reflexivity.
Qed.

Lemma announcements_after_forwarding st :
  forall ifcs first,
    announcements st first (forwarding_on (m_interfaceExclusions st) first ifcs)
    = announcements st first ifcs.
Proof.
  induction ifcs as [|ifc ifcs IH]; intros first; [reflexivity|].
  cbn [forwarding_on announcements]. rewrite IH. f_equal.
  destruct (participates _ first ifc) eqn:Hp; [|now rewrite Hp].
  unfold participates in *. cbn [netDeviceIsLoopback addresses]. now rewrite Hp.
Qed.

(** X12. Running the bootstrap a second time on a still empty table
    completes again, changes no forwarding flag any more, and sends the
    same announcements once more: one per eligible address and
    invocation, with the table still empty. *)
Theorem startDownState_twice st :
  OspfNeighborTable.m_neighbors (m_neighbor_table st) = [] ->
  (startDownState ;; startDownState) st
  = (Ok tt,
     mkProto (forwarding_on (m_interfaceExclusions st) 0 (m_ipv4 st))
             (m_interfaceExclusions st) (m_neighbor_table st)
             (m_routerId st) (m_areaId st)
             (m_downTarget st ++ announcements st 0 (m_ipv4 st)
                              ++ announcements st 0 (m_ipv4 st))).
Proof.
  intros Hempty.
  rewrite (bind_ok _ _ _ tt _ (startDownState_empty_run st Hempty)).
  rewrite startDownState_empty_run by exact Hempty.
  cbn [m_ipv4 m_interfaceExclusions m_neighbor_table m_routerId m_areaId
       m_downTarget].
  rewrite forwarding_on_again, <- app_assoc.
  do 4 f_equal.
  etransitivity;
    [apply (announcements_frame _ st); reflexivity
    |apply announcements_after_forwarding].
Qed.

Lemma startDownState_twice_witness :
  m_downTarget (snd ((startDownState ;; startDownState) Scenario.router1))
  = [composed Scenario.addr1 OSPF_ALL_NODE States.DOWN Scenario.router1;
     composed Scenario.addr1 OSPF_ALL_NODE States.DOWN Scenario.router1].
Proof.
  rewrite (startDownState_twice Scenario.router1); reflexivity.
Defined.

Lemma same_table_and_identity_refl st : same_table_and_identity st st.
Proof. repeat split. Qed.

Lemma same_table_and_identity_trans a b c :
  same_table_and_identity a b -> same_table_and_identity b c ->
  same_table_and_identity a c.
Proof.
  unfold same_table_and_identity.
  intros [H1 [H2 [H3 H4]]] [H5 [H6 [H7 H8]]].
  repeat split; congruence.
Qed.

(** X13. Whatever the table holds and whether the run completes or
    aborts, the bootstrap never changes the neighbour table, the
    exclusion set, the router id or the area id, and it only appends to
    the log of the down target. *)
Theorem startDownState_keeps_table_and_identity st :
  same_table_and_identity st (snd (startDownState st)) /\
  exists new, m_downTarget (snd (startDownState st)) = m_downTarget st ++ new.
Proof.
  split.
  - apply (respects_startDownState same_table_and_identity
             same_table_and_identity_refl same_table_and_identity_trans
             (fun _ => True)); auto.
    + intros c st0 _. repeat split.
    + intros ipv4 st0. repeat split.
  - destruct (respects_startDownState (appends (fun _ => True))
                (appends_refl _) (appends_trans _) (fun _ => True)
                (fun _ _ _ => I)
                (fun c st0 _ => appends_push _ c st0 I)
                (fun ipv4 st0 => appends_same_log _ st0 _ eq_refl) st)
      as [new [Hnew _]].
    exists new. exact Hnew.
Qed.

(** ** The bootstrap on any table *)

(** The scan over the snapshot reads and compares; it changes nothing. *)
Lemma interface_scan_keeps_state (address : Ipv4InterfaceAddress.t) (i : nat)
    (rows : neighborList) (full : bool) st :
  snd (fold_m (fun full row =>
         fold_m (fun full tableItems =>
           let* theirs := GetAddress (OspfNeighborTable.ipInterface tableItems) i in
           ret (if bool_decide (address = theirs) then true else full))
           row full)
         rows full st)
  = st.
Proof.
  symmetry.
  apply (respects_fold_m eq (fun s => eq_refl) (fun a b c H1 H2 => eq_trans H1 H2)).
  intros b row.
  apply (respects_fold_m eq (fun s => eq_refl) (fun a b c H1 H2 => eq_trans H1 H2)).
  intros b' n.
  apply (respects_bind eq (fun a b c H1 H2 => eq_trans H1 H2)).
  - apply (respects_GetAddress eq (fun s => eq_refl)).
  - intros a. apply (respects_ret eq (fun s => eq_refl)).
Qed.

(** One address, whatever the snapshot: either nothing is logged or the
    announcement of this address is, and then the address is not
    host-scoped and the interface is active. *)
Lemma address_pass_sound nt i active j ifc address ipv4 excl tbl rid aid log :
  ipv4 !! i = Some ifc -> addresses ifc !! j = Some address ->
  exists r new,
    address_pass nt i active j (mkProto ipv4 excl tbl rid aid log)
    = (r, mkProto ipv4 excl tbl rid aid (log ++ new)) /\
    forall c, In c new ->
      active = true /\
      Ipv4InterfaceAddress.GetScope address <> Ipv4InterfaceAddress.HOST /\
      c = composed address OSPF_ALL_NODE States.DOWN (mkProto ipv4 excl tbl rid aid log).
Proof.
  intros Hi Hj. unfold address_pass.
  rewrite (bind_ok _ _ _ address (mkProto ipv4 excl tbl rid aid log))
    by (now apply (ipv4_GetAddress_run i j ifc)).
  destruct (scope_is_host address) eqn:Hhost; cbn [negb andb].
  { exists (Ok tt), []. rewrite app_nil_r. split; [reflexivity|]. intros c []. }
  destruct active; cbn [when].
  2: { exists (Ok tt), []. rewrite app_nil_r. split; [reflexivity|]. intros c []. }
  apply bool_decide_eq_false in Hhost.
  assert (Hsend :
    exists r new,
      when (negb false) (SendDownPacket address) (mkProto ipv4 excl tbl rid aid log)
      = (r, mkProto ipv4 excl tbl rid aid (log ++ new)) /\
      forall c, In c new ->
        true = true /\
        Ipv4InterfaceAddress.GetScope address <> Ipv4InterfaceAddress.HOST /\
        c = composed address OSPF_ALL_NODE States.DOWN
              (mkProto ipv4 excl tbl rid aid log)).
  { cbn [negb when]. rewrite SendDownPacket_run. unfold after_send, scope_is_host.
    rewrite bool_decide_eq_false_2 by exact Hhost.
    exists (Ok tt), [composed address OSPF_ALL_NODE States.DOWN
                       (mkProto ipv4 excl tbl rid aid log)].
    split; [reflexivity|]. intros c [<-|[]]. auto. }
  assert (Hquiet :
    forall r : result unit,
    exists r' new,
      (r, mkProto ipv4 excl tbl rid aid log)
      = (r', mkProto ipv4 excl tbl rid aid (log ++ new)) /\
      forall c, In c new ->
        true = true /\
        Ipv4InterfaceAddress.GetScope address <> Ipv4InterfaceAddress.HOST /\
        c = composed address OSPF_ALL_NODE States.DOWN
              (mkProto ipv4 excl tbl rid aid log)).
  { intros r. exists r, []. rewrite app_nil_r. split; [reflexivity|]. intros c []. }
  destruct nt as [|row rows].
  - rewrite (bind_ok _ _ _ false (mkProto ipv4 excl tbl rid aid log)) by reflexivity.
    exact Hsend.
  - unfold bind at 1.
    pose proof (interface_scan_keeps_state address i (row :: rows) false
                  (mkProto ipv4 excl tbl rid aid log)) as Hscan.
    destruct (fold_m _ (row :: rows) false _) as [[full|e] st'].
    + simpl in Hscan. subst st'. destruct full.
      * apply (Hquiet (Ok tt)).
      * exact Hsend.
    + simpl in Hscan. subst st'. apply (Hquiet (Abort e)).
Qed.

Lemma address_passes_sound nt i active ifc ipv4 excl tbl rid aid :
  ipv4 !! i = Some ifc ->
  forall todo done log,
    addresses ifc = done ++ todo ->
    exists r new,
      for_each (seq (length done) (length todo)) (address_pass nt i active)
        (mkProto ipv4 excl tbl rid aid log)
      = (r, mkProto ipv4 excl tbl rid aid (log ++ new)) /\
      forall c, In c new ->
        active = true /\
        exists address,
          In address todo /\
          Ipv4InterfaceAddress.GetScope address <> Ipv4InterfaceAddress.HOST /\
          c = composed address OSPF_ALL_NODE States.DOWN
                (mkProto ipv4 excl tbl rid aid log).
Proof.
  intros Hi. induction todo as [|a todo IH]; intros done log Hsplit.
  - exists (Ok tt), []. rewrite app_nil_r. split; [reflexivity|]. intros c [].
  - change (seq (length done) (length (a :: todo)))
      with (length done :: seq (S (length done)) (length todo)).
    assert (Hsplit' : addresses ifc = (done ++ [a]) ++ todo)
      by now rewrite <- app_assoc.
    assert (Hlen : S (length done) = length (done ++ [a]))
      by (rewrite length_app; simpl; lia).
    assert (Hj : addresses ifc !! length done = Some a)
      by (rewrite Hsplit; apply list_lookup_middle; reflexivity).
    destruct (address_pass_sound nt i active (length done) ifc a
                ipv4 excl tbl rid aid log Hi Hj) as [r1 [new1 [Hrun1 Hnew1]]].
    cbn [for_each]. unfold bind at 1. rewrite Hrun1.
    destruct r1 as [[]|e].
    + rewrite Hlen.
      destruct (IH (done ++ [a]) (log ++ new1) Hsplit') as [r2 [new2 [Hrun2 Hnew2]]].
      rewrite Hrun2. exists r2, (new1 ++ new2). rewrite app_assoc.
      split; [reflexivity|]. intros c Hc. apply in_app_iff in Hc.
      destruct Hc as [Hc|Hc].
      * destruct (Hnew1 c Hc) as [Hact [Hs Heq]].
        split; [exact Hact|]. exists a. split; [left; reflexivity|]. auto.
      * destruct (Hnew2 c Hc) as [Hact [a' [Hin [Hs Heq]]]].
        split; [exact Hact|]. exists a'. split; [right; exact Hin|]. auto.
    + exists (Abort e), new1. split; [reflexivity|]. intros c Hc.
      destruct (Hnew1 c Hc) as [Hact [Hs Heq]].
      split; [exact Hact|]. exists a. split; [left; reflexivity|]. auto.
Qed.

Lemma interface_pass_sound nt done ifc todo excl tbl rid aid log :
  exists r ifc' new,
    interface_pass nt (length done) (mkProto (done ++ ifc :: todo) excl tbl rid aid log)
    = (r, mkProto (done ++ ifc' :: todo) excl tbl rid aid (log ++ new)) /\
    forall c, In c new ->
      netDeviceIsLoopback ifc = false /\
      (length done ∉ excl) /\
      exists address,
        In address (addresses ifc) /\
        Ipv4InterfaceAddress.GetScope address <> Ipv4InterfaceAddress.HOST /\
        c = composed address OSPF_ALL_NODE States.DOWN
              (mkProto (done ++ ifc :: todo) excl tbl rid aid log).
Proof.
  assert (Hi : (done ++ ifc :: todo) !! length done = Some ifc)
    by (apply list_lookup_middle; reflexivity).
  unfold interface_pass.
  rewrite (bind_ok _ _ _ ifc _) by (now apply ipv4_interface_run).
  destruct (netDeviceIsLoopback ifc) eqn:Hloop.
  { exists (Ok tt), ifc, []. rewrite app_nil_r. split; [reflexivity|]. intros c []. }
  rewrite (bind_ok _ _ _ excl _) by reflexivity.
  destruct (bool_decide (length done ∉ excl)) eqn:Hexcl.
  - rewrite (bind_ok _ _ _ true
               (mkProto (done ++ mkIf false true (addresses ifc) :: todo)
                        excl tbl rid aid log)).
    2: { rewrite (bind_ok _ _ _ tt _) by apply SetForwarding_run.
         rewrite Hloop. reflexivity. }
    assert (Hi' :
      (done ++ mkIf false true (addresses ifc) :: todo) !! length done
      = Some (mkIf false true (addresses ifc)))
      by (apply list_lookup_middle; reflexivity).
    rewrite (bind_ok _ _ _ (length (addresses ifc)) _)
      by (now apply (GetNAddresses_run _ (mkIf false true (addresses ifc)))).
    destruct (address_passes_sound nt (length done) true
                (mkIf false true (addresses ifc)) _ excl tbl rid aid Hi'
                (addresses ifc) [] log eq_refl) as [r [new [Hrun Hnew]]].
    exists r, (mkIf false true (addresses ifc)), new.
    split; [exact Hrun|]. intros c Hc.
    destruct (Hnew c Hc) as [_ [a [Hin [Hs Heq]]]].
    apply bool_decide_eq_true in Hexcl.
    split; [reflexivity|]. split; [exact Hexcl|]. exists a. auto.
  - rewrite (bind_ok _ _ _ false _) by reflexivity.
    rewrite (bind_ok _ _ _ (length (addresses ifc)) _)
      by (now apply (GetNAddresses_run _ ifc)).
    destruct (address_passes_sound nt (length done) false
                ifc _ excl tbl rid aid Hi (addresses ifc) [] log eq_refl)
      as [r [new [Hrun Hnew]]].
    exists r, ifc, new. split; [exact Hrun|]. intros c Hc.
    destruct (Hnew c Hc) as [Hact _]. discriminate.
Qed.

Lemma interface_passes_sound nt excl tbl rid aid :
  forall todo done log,
    exists r ipv4' new,
      for_each (seq (length done) (length todo)) (interface_pass nt)
        (mkProto (done ++ todo) excl tbl rid aid log)
      = (r, mkProto ipv4' excl tbl rid aid (log ++ new)) /\
      forall c, In c new ->
        exists k ifc address,
          todo !! k = Some ifc /\
          In address (addresses ifc) /\
          netDeviceIsLoopback ifc = false /\
          ((length done + k)%nat ∉ excl) /\
          Ipv4InterfaceAddress.GetScope address <> Ipv4InterfaceAddress.HOST /\
          c = composed address OSPF_ALL_NODE States.DOWN
                (mkProto (done ++ todo) excl tbl rid aid log).
Proof.
  induction todo as [|ifc todo IH]; intros done log.
  - exists (Ok tt), (done ++ []), []. rewrite !app_nil_r.
    split; [reflexivity|]. intros c [].
  - change (seq (length done) (length (ifc :: todo)))
      with (length done :: seq (S (length done)) (length todo)).
    destruct (interface_pass_sound nt done ifc todo excl tbl rid aid log)
      as [r1 [ifc' [new1 [Hrun1 Hnew1]]]].
    cbn [for_each]. unfold bind at 1. rewrite Hrun1.
    assert (Hhere : forall c, In c new1 ->
      exists k ifc0 address,
        (ifc :: todo) !! k = Some ifc0 /\
        In address (addresses ifc0) /\
        netDeviceIsLoopback ifc0 = false /\
        ((length done + k)%nat ∉ excl) /\
        Ipv4InterfaceAddress.GetScope address <> Ipv4InterfaceAddress.HOST /\
        c = composed address OSPF_ALL_NODE States.DOWN
              (mkProto (done ++ ifc :: todo) excl tbl rid aid log)).
    { intros c Hc. destruct (Hnew1 c Hc) as [Hl [He [a [Hin [Hs Heq]]]]].
      exists 0%nat, ifc, a. rewrite Nat.add_0_r. auto 10. }
    destruct r1 as [[]|e].
    + assert (Hlen : S (length done) = length (done ++ [ifc']))
        by (rewrite length_app; simpl; lia).
      rewrite (cons_middle ifc' done todo), app_assoc, Hlen.
      destruct (IH (done ++ [ifc']) (log ++ new1)) as [r2 [ipv4' [new2 [Hrun2 Hnew2]]]].
      rewrite Hrun2. exists r2, ipv4', (new1 ++ new2). rewrite app_assoc.
      split; [reflexivity|]. intros c Hc. apply in_app_iff in Hc.
      destruct Hc as [Hc|Hc]; [now apply Hhere|].
      destruct (Hnew2 c Hc) as [k [ifc0 [a [Hk [Hin [Hl [He [Hs Heq]]]]]]]].
      exists (S k), ifc0, a. rewrite <- Hlen in He.
      rewrite Nat.add_succ_r. auto 10.
    + exists (Abort e), (done ++ ifc' :: todo), new1.
      split; [reflexivity|]. exact Hhere.
Qed.

(** X14. Whatever the table holds and whether the run completes or
    aborts, the bootstrap adds nothing to the log but announcements of
    eligible addresses: every new call is a Down-state packet to
    224.0.0.5 composed from an address that is not host-scoped and sits
    on an interface that is neither a loopback device nor excluded. *)
Theorem startDownState_only_announces_eligible_addresses st c :
  In c (m_downTarget (snd (startDownState st))) ->
  In c (m_downTarget st) \/
  exists i ifc address,
    m_ipv4 st !! i = Some ifc /\
    In address (addresses ifc) /\
    netDeviceIsLoopback ifc = false /\
    (i ∉ m_interfaceExclusions st) /\
    Ipv4InterfaceAddress.GetScope address <> Ipv4InterfaceAddress.HOST /\
    c = composed address OSPF_ALL_NODE States.DOWN st.
Proof.
  rewrite startDownState_passes.
  destruct st as [ipv4 excl tbl rid aid log].
  unfold bind at 1. unfold gets at 1. unfold bind at 1. unfold gets at 1.
  cbn [m_ipv4 m_downTarget m_interfaceExclusions m_neighbor_table].
  destruct (interface_passes_sound
              (OspfNeighborTable.getCurrentNeighbors
                 (m_neighbor_table (mkProto ipv4 excl tbl rid aid log)))
              excl tbl rid aid ipv4 [] log) as [r [ipv4' [new [Hrun Hnew]]]].
  cbn [m_neighbor_table app length] in Hrun. rewrite Hrun. cbn [snd m_downTarget].
  intros Hc. apply in_app_iff in Hc. destruct Hc as [Hc|Hc]; [left; exact Hc|].
  right. destruct (Hnew c Hc) as [k [ifc [a H]]]. exists k, ifc, a. exact H.
Qed.

Lemma startDownState_only_announces_eligible_addresses_witness :
  exists i ifc address,
    m_ipv4 Scenario.router1 !! i = Some ifc /\
    In address (addresses ifc) /\
    netDeviceIsLoopback ifc = false /\
    (i ∉ m_interfaceExclusions Scenario.router1) /\
    Ipv4InterfaceAddress.GetScope address <> Ipv4InterfaceAddress.HOST /\
    composed Scenario.addr1 OSPF_ALL_NODE States.DOWN Scenario.router1
    = composed address OSPF_ALL_NODE States.DOWN Scenario.router1.
Proof.
  destruct (startDownState_only_announces_eligible_addresses Scenario.router1
              (composed Scenario.addr1 OSPF_ALL_NODE States.DOWN Scenario.router1))
    as [[]|H].
  - left. reflexivity.
  - exact H.
Defined.

(** * Further properties of the scan, the ICMP path and the handshake *)

(** X15. The nested scan the Init and Two-Way handlers run over a
    snapshot or over the local table answers [true] exactly when some
    record of some row carries the router id looked for; in particular
    it answers [false] on the empty list and on rows that are all
    empty. *)
Theorem scan_router_id_finds_exactly_members rid rows :
  scan_router_id rid rows = true <->
  (exists row n, In row rows /\ In n row /\ OspfNeighborTable.router_id n = rid).
Proof.
  rewrite TableFacts.scan_router_id_spec.
  unfold OspfNeighborTable.has_router_id, OspfNeighborTable.records.
  rewrite existsb_exists. split.
  - intros [n [Hin Hid]]. apply in_concat in Hin. destruct Hin as [row [Hrow Hn]].
    exists row, n. apply Z.eqb_eq in Hid. auto.
  - intros [row [n [Hrow [Hn Hid]]]]. exists n. split.
    + apply in_concat. eauto.
    + now apply Z.eqb_eq.
Qed.

Lemma lor_of_bytes b0 b1 :
  is_byte b0 -> is_byte b1 -> Z.lor (b0 * 256) b1 = b0 * 256 + b1.
Proof.
  unfold is_byte. intros H0 H1.
  symmetry. apply Z.add_nocarry_lor.
  apply Z.bits_inj'. intros n Hn.
  rewrite Z.land_spec, Z.bits_0.
  destruct (Z.lt_ge_cases n 8) as [Hlow|Hhigh].
  - change 256 with (2 ^ 8). rewrite Z.mul_pow2_bits_low by lia. reflexivity.
  - assert (Hb : Z.testbit b1 n = false).
    { destruct (Z.eq_dec b1 0) as [->|Hnz]; [apply Z.bits_0|].
      apply Z.bits_above_log2; [lia|].
      apply Z.lt_le_trans with 8; [|exact Hhigh].
      apply Z.log2_lt_pow2; [lia|]. change (2 ^ 8) with 256. lia. }
    rewrite Hb. apply andb_false_r.
Qed.

Lemma icmp_port_value b0 b1 :
  is_byte b0 -> is_byte b1 -> icmp_port b0 b1 = b0 * 256 + b1.
Proof.
  intros H0 H1. pose proof H0 as H0'. pose proof H1 as H1'.
  unfold is_byte in H0', H1'.
  unfold icmp_port, to_uint16. change (2 ^ 16) with 65536.
  rewrite Z.shiftl_mul_pow2 by lia. change (2 ^ 8) with 256.
  rewrite (Z.mod_small (b0 * 256)) by lia.
  rewrite lor_of_bytes by assumption.
  apply Z.mod_small. lia.
Qed.

(** X16. The port [ReceiveIcmp] reads from two payload bytes is their
    big-endian value: it lies in the range of a 16-bit port, and every
    port is read back from its own high and low byte, so the [uint16_t]
    arithmetic loses nothing. *)
Theorem icmp_port_is_big_endian b0 b1 :
  is_byte b0 -> is_byte b1 ->
  icmp_port b0 b1 = b0 * 256 + b1 /\
  0 <= icmp_port b0 b1 < 65536 /\
  icmp_port (icmp_port b0 b1 / 256) (icmp_port b0 b1 mod 256) = icmp_port b0 b1.
Proof.
  intros H0 H1. pose proof H0 as H0'. pose proof H1 as H1'.
  unfold is_byte in H0', H1'.
  pose proof (icmp_port_value b0 b1 H0 H1) as Hval.
  split; [exact Hval|]. split; [lia|].
  rewrite Hval.
  assert (Hdiv : (b0 * 256 + b1) / 256 = b0)
    by (rewrite Z.div_add_l by lia; rewrite Z.div_small by lia; lia).
  assert (Hmod : (b0 * 256 + b1) mod 256 = b1)
    by (rewrite Z.add_comm, Z.mod_add by lia; apply Z.mod_small; lia).
  rewrite Hdiv, Hmod. exact Hval.
Qed.

Lemma icmp_port_is_big_endian_witness :
  icmp_port 1 187 = 443 /\
  0 <= icmp_port 1 187 < 65536 /\
  icmp_port (icmp_port 1 187 / 256) (icmp_port 1 187 mod 256) = icmp_port 1 187.
Proof.
  apply (icmp_port_is_big_endian 1 187); unfold is_byte; lia.
Defined.

(** X17. [ReceiveIcmp] forwards to an end point exactly when the
    demultiplexer finds one for the payload's addresses and the two
    big-endian ports of its first four bytes; what it forwards are the
    five ICMP values it was given, unchanged. *)
Theorem ReceiveIcmp_forwards_to_the_looked_up_end_point
    {EndPoint : Type}
    (SimpleLookup : Ipv4Address -> Z -> Ipv4Address -> Z -> option EndPoint)
    icmpSource icmpTtl icmpType icmpCode icmpInfo payloadSource payloadDestination
    b0 b1 b2 b3 rest :
  is_byte b0 -> is_byte b1 -> is_byte b2 -> is_byte b3 ->
  ReceiveIcmp SimpleLookup icmpSource icmpTtl icmpType icmpCode icmpInfo
              payloadSource payloadDestination (b0 :: b1 :: b2 :: b3 :: rest)
  = match SimpleLookup payloadSource (b0 * 256 + b1)
                       payloadDestination (b2 * 256 + b3) with
    | Some endPoint =>
        Some (endPoint, (icmpSource, icmpTtl, icmpType, icmpCode, icmpInfo))
    | None => None
    end.
Proof.
  intros H0 H1 H2 H3. unfold ReceiveIcmp. cbn [nth].
  rewrite (icmp_port_value b0 b1 H0 H1), (icmp_port_value b2 b3 H2 H3).
  reflexivity.
Qed.

Lemma ReceiveIcmp_forwards_to_the_looked_up_end_point_witness :
  ReceiveIcmp (fun _ src _ dst => if (src =? 443) && (dst =? 80) then Some tt else None)
              (dotted 10 1 1 2) 64 3 1 0 (dotted 10 1 1 1) (dotted 10 1 1 2)
              [1; 187; 0; 80; 0; 0; 0; 0]
  = Some (tt, (dotted 10 1 1 2, 64, 3, 1, 0)).
Proof.
  rewrite ReceiveIcmp_forwards_to_the_looked_up_end_point;
    [reflexivity|unfold is_byte; lia..].
Defined.

(** X18. The Init reply to an accepted Down packet lists the sender of
    that packet: the snapshot it carries holds a record with the
    sender's router id, so the sender's visibility check over the reply
    succeeds when it runs in the same area. *)
Theorem init_reply_lists_the_sender packet header interface incomingIf address st sender :
  packetInfoTag packet = Some incomingIf ->
  OspfHeader.GetState (ospfHeaderOf packet) = States.DOWN ->
  OspfHello.getAreaId (helloHeaderOf packet) = m_areaId st ->
  Ipv4Interface.GetAddress interface incomingIf = Some address ->
  OspfHeader.GetMask (ospfHeaderOf packet) = Ipv4InterfaceAddress.GetMask address ->
  Ipv4InterfaceAddress.GetScope address <> Ipv4InterfaceAddress.HOST ->
  m_routerId sender = OspfHello.getRouterId (helloHeaderOf packet) ->
  m_areaId sender = m_areaId st ->
  exists c,
    m_downTarget (snd (Receive packet header interface st)) = m_downTarget st ++ [c] /\
    packet_state c = States.INIT /\
    call_daddr c = Ipv4Header.GetSource header /\
    fst (visibility_check (helloHeaderOf (call_packet c)) sender) = Ok true.
Proof.
  intros Ht Hs Harea Ha Hmask Hscope Hrid Haid.
  rewrite (Receive_down _ _ _ _ _ Ht Hs).
  rewrite (HandleDownResponse_accept _ _ _ _ _ _ _ Harea Ha Hmask).
  rewrite finish_ok. cbn [snd].
  destruct (after_send_sends address (Ipv4Header.GetSource header) States.INIT
              (update_table
                 (OspfNeighborTable.addNeighbors
                    (Ipv4Header.GetSource header)
                    (OspfHeader.GetMask (ospfHeaderOf packet)) interface
                    (OspfHeader.GetState (ospfHeaderOf packet))
                    (OspfHello.getRouterId (helloHeaderOf packet))) st))
    as [Hsent _].
  eexists. split; [exact (Hsent Hscope)|].
  split; [reflexivity|]. split; [reflexivity|].
  rewrite visibility_check_run. cbn [fst]. f_equal.
  unfold visible, composed, hello_of. cbn.
  rewrite Hrid, Haid, Z.eqb_refl, andb_true_r.
  apply TableFacts.has_after_addNeighbors.
Qed.

Lemma init_reply_lists_the_sender_witness :
  exists c,
    m_downTarget
      (snd (Receive Scenario.down_valid Scenario.from_2 Scenario.link1 Scenario.router1))
    = m_downTarget Scenario.router1 ++ [c] /\
    packet_state c = States.INIT /\
    call_daddr c = Ipv4Header.GetSource Scenario.from_2 /\
    fst (visibility_check (helloHeaderOf (call_packet c)) (constructed [] ∅ 2 0))
    = Ok true.
Proof.
  apply (init_reply_lists_the_sender Scenario.down_valid Scenario.from_2
           Scenario.link1 0%nat Scenario.addr1 Scenario.router1
           (constructed [] ∅ 2 0));
    try reflexivity.
  vm_compute. discriminate.
Defined.



